(** * jsmongo: an embedded document store, verified against its description

    A shallow embedding of [jsmongo.js] (class [JSM] and the collection
    methods built by [_createCollectionMethods]).

    Modelling conventions.
    - A JavaScript value is a [value]; numbers are integers ([Z]), floating
      point is not modelled.  Objects are association lists of their own
      enumerable string-keyed properties, in insertion order; properties
      inherited from [Object.prototype] and the engine's reordering of
      integer-like keys are outside the model.
    - Object identity is not tracked: [===] on two containers answers
      [false], which is what the engine answers whenever the two operands
      are not the very same object (always so for filters written as fresh
      literals and for documents read back from disk).
    - The relational operators [<], [>], [<=], [>=] of the engine, the
      random source, the password hash and the failures of the file system
      are parameters, gathered in a [runtime].
    - An exception is a [Throw]; asynchronous methods are run to completion
      one at a time (the store is single-threaded), so a method is a function
      from the [world] before the call to its outcome and the [world] after.
    - The disk is the tree below [storagePath]; database and collection
      names are used as single path components. *)

From Stdlib Require Import String Ascii List ZArith Bool Arith Lia.
From Stdlib Require Import DecimalString HexadecimalString.
From Equations Require Import Equations.
Import ListNotations.

Set Warnings "-register-all".

Local Open Scope string_scope.
Local Open Scope list_scope.

(* ================================================================= *)
(** ** Values *)

Inductive value : Type :=
| VUndef
| VNull
| VBool (b : bool)
| VNum (n : Z)
| VStr (s : string)
| VArr (items : list value)
| VObj (fields : list (string * value)).

(** The own properties of a plain object. *)
Definition obj : Type := list (string * value).

Inductive error : Type :=
| TypeError (what : string)
| Failure (message : string).

Inductive result (A : Type) : Type :=
| Ok (a : A)
| Throw (e : error).
Arguments Ok {A} a.
Arguments Throw {A} e.

Definition rbind {A B : Type} (r : result A) (k : A -> result B) : result B :=
  match r with
  | Ok a => k a
  | Throw e => Throw e
  end.

Notation "'let*' x ':=' r 'in' k" := (rbind r (fun x => k))
  (at level 10, x name, r at level 100, k at level 200).

(* ----------------------------------------------------------------- *)
(** *** Property tables *)

(** [o[k]] as an own-property lookup. *)
Fixpoint lookup {A : Type} (k : string) (o : list (string * A)) : option A :=
  match o with
  | [] => None
  | (k', v) :: rest => if (k =? k')%string then Some v else lookup k rest
  end.

(** [o[k] = v]: an existing property keeps its place, a new one goes last. *)
Fixpoint set_prop {A : Type} (k : string) (v : A) (o : list (string * A))
  : list (string * A) :=
  match o with
  | [] => [(k, v)]
  | (k', v') :: rest =>
      if (k =? k')%string then (k, v) :: rest else (k', v') :: set_prop k v rest
  end.

(** [delete o[k]]. *)
Definition delete_prop {A : Type} (k : string) (o : list (string * A))
  : list (string * A) :=
  filter (fun kv => negb (k =? fst kv)%string) o.


(** Reading a property of a plain object: [undefined] when it is absent. *)
Definition get (o : obj) (k : string) : value :=
  match lookup k o with
  | Some v => v
  | None => VUndef
  end.

(** [Object.assign(target, source)] on own properties. *)
Definition assign (target source : obj) : obj :=
  fold_left (fun t kv => set_prop (fst kv) (snd kv) t) source target.

(* ----------------------------------------------------------------- *)
(** *** Engine primitives on values *)

Definition nat_key (i : nat) : string := DecimalString.NilZero.string_of_uint (Nat.to_uint i).

(** [String(v)], which is also the property key [v] is coerced to. *)
Fixpoint to_key (v : value) : string :=
  match v with
  | VUndef => "undefined"
  | VNull => "null"
  | VBool true => "true"
  | VBool false => "false"
  | VNum n => DecimalString.NilZero.string_of_int (Z.to_int n)
  | VStr s => s
  | VArr items =>
      (fix join (l : list value) : string :=
         match l with
         | [] => ""
         | x :: rest =>
             let here := match x with
                         | VUndef | VNull => ""
                         | _ => to_key x
                         end in
             match rest with
             | [] => here
             | _ :: _ => (here ++ "," ++ join rest)%string
             end
         end) items
  | VObj _ => "[object Object]"
  end.

(** Truthiness, as tested by [!v], [if (v)] and [||]. *)
Definition truthy (v : value) : bool :=
  match v with
  | VUndef | VNull => false
  | VBool b => b
  | VNum n => negb (n =? 0)%Z
  | VStr s => negb (s =? "")%string
  | VArr _ | VObj _ => true
  end.

(** [typeof v === 'object' && v !== null]. *)
Definition is_object (v : value) : bool :=
  match v with
  | VArr _ | VObj _ => true
  | _ => false
  end.

(** [Array.isArray(v)]. *)
Definition is_array (v : value) : bool :=
  match v with
  | VArr _ => true
  | _ => false
  end.

(** [a === b]. *)
Definition strict_eq (a b : value) : bool :=
  match a, b with
  | VUndef, VUndef => true
  | VNull, VNull => true
  | VBool x, VBool y => Bool.eqb x y
  | VNum x, VNum y => (x =? y)%Z
  | VStr x, VStr y => (x =? y)%string
  | _, _ => false
  end.

Fixpoint chars (i : nat) (s : string) : obj :=
  match s with
  | EmptyString => []
  | String c rest => (nat_key i, VStr (String c EmptyString)) :: chars (S i) rest
  end.

Fixpoint indexed (i : nat) (l : list value) : obj :=
  match l with
  | [] => []
  | x :: rest => (nat_key i, x) :: indexed (S i) rest
  end.

(** The own enumerable properties seen by a spread [{...v}], by
    [Object.assign(_, v)], [Object.keys(v)] and [Object.entries(v)], for a
    [v] that is neither [null] nor [undefined]. *)
Definition own_props (v : value) : obj :=
  match v with
  | VObj fields => fields
  | VArr items => indexed 0 items
  | VStr s => chars 0 s
  | _ => []
  end.

(** [Object.entries(v)] and [Object.keys(v)] throw on [null] and
    [undefined]. *)
Definition object_entries (v : value) : result obj :=
  match v with
  | VUndef | VNull => Throw (TypeError "Cannot convert undefined or null to object")
  | _ => Ok (own_props v)
  end.

(** [v[k]] and [v.k]. *)
Definition get_prop (v : value) (k : string) : result value :=
  match v with
  | VUndef | VNull => Throw (TypeError "Cannot read properties of undefined or null")
  | VObj fields => Ok (get fields k)
  | VArr items =>
      if (k =? "length")%string then Ok (VNum (Z.of_nat (length items)))
      else Ok (get (indexed 0 items) k)
  | VStr s =>
      if (k =? "length")%string then Ok (VNum (Z.of_nat (String.length s)))
      else Ok (get (chars 0 s) k)
  | VBool _ | VNum _ => Ok VUndef
  end.

(** [v?.k]. *)
Definition get_prop_opt (v : value) (k : string) : value :=
  match get_prop v k with
  | Ok x => x
  | Throw _ => VUndef
  end.

Fixpoint is_infix (needle hay : string) : bool :=
  if String.prefix needle hay then true
  else match hay with
       | EmptyString => false
       | String _ rest => is_infix needle rest
       end.

(** [recv.includes(x)]: membership for an array, substring search for a
    string, and a [TypeError] for every other receiver, which has no such
    method. *)
Definition js_includes (recv x : value) : result bool :=
  match recv with
  | VArr items => Ok (existsb (strict_eq x) items)
  | VStr s => Ok (is_infix (to_key x) s)
  | _ => Throw (TypeError "includes is not a function")
  end.

(* ================================================================= *)
(** ** The runtime the store runs on *)

Inductive relop : Type := Gt | Lt | Gte | Lte.

Record runtime : Type := {
  (** the engine's relational comparison of two data values *)
  rel : relop -> value -> value -> bool;
  (** [crypto.randomBytes(12).toString('hex')], by call number *)
  random_hex : nat -> string;
  (** [bcrypt.hash(password, 10)] *)
  bcrypt_hash : string -> string;
  (** whether [fs.writeFile] of file [name] in directory [dir] fails *)
  write_fails : string -> string -> bool
}.

(* ================================================================= *)
(** ** The query matcher *)

Section Matcher.

Variable rt : runtime.

(** One [case] of the [switch] of [_matchQuery]: [Ok true] is [break],
    [Ok false] is [return false]. *)
Definition match_operator (doc : value) (key operator : string)
  (compValue : value) : result bool :=
  if (operator =? "$gt")%string then
    let* field := get_prop doc key in Ok (rel rt Gt field compValue)
  else if (operator =? "$lt")%string then
    let* field := get_prop doc key in Ok (rel rt Lt field compValue)
  else if (operator =? "$gte")%string then
    let* field := get_prop doc key in Ok (rel rt Gte field compValue)
  else if (operator =? "$lte")%string then
    let* field := get_prop doc key in Ok (rel rt Lte field compValue)
  else if (operator =? "$eq")%string then
    let* field := get_prop doc key in Ok (strict_eq field compValue)
  else if (operator =? "$ne")%string then
    let* field := get_prop doc key in Ok (negb (strict_eq field compValue))
  else if (operator =? "$in")%string then
    if negb (is_array compValue) then Ok false
    else let* field := get_prop doc key in
         let* found := js_includes compValue field in
         Ok found
  else if (operator =? "$nin")%string then
    if negb (is_array compValue) then Ok false
    else let* field := get_prop doc key in
         let* found := js_includes compValue field in
         Ok (negb found)
  else Ok false.

(** The inner [for] over [Object.entries(value)]. *)
Fixpoint match_operators (doc : value) (key : string) (ops : obj)
  : result bool :=
  match ops with
  | [] => Ok true
  | (operator, compValue) :: rest =>
      let* pass := match_operator doc key operator compValue in
      if pass then match_operators doc key rest else Ok false
  end.

(** The outer [for] over [Object.entries(query)]. *)
Fixpoint match_entries (doc : value) (entries : obj) : result bool :=
  match entries with
  | [] => Ok true
  | (key, v) :: rest =>
      if is_object v then
        let* pass := match_operators doc key (own_props v) in
        if pass then match_entries doc rest else Ok false
      else
        let* field := get_prop doc key in
        if negb (strict_eq field v) then Ok false
        else match_entries doc rest
  end.

Definition _matchQuery (doc query : value) : result bool :=
  let* entries := object_entries query in
  match_entries doc entries.

End Matcher.

(* ================================================================= *)
(** ** The store and its world *)

(** An index of one field: coerced field value to positions. *)
Definition index : Type := list (string * list nat).

(** What lies below [storagePath].  A file holds the JSON text of an array
    of documents, or ([None]) text that [JSON.parse] rejects. *)
Inductive fnode : Type :=
| FFile (content : option (list obj))
| FDir (entries : list (string * fnode)).

Definition dir : Type := list (string * fnode).

(** The fields of a [JSM] instance. *)
Record JSM : Type := mkJSM {
  storageMode : string;
  _databases : list string;
  _collections : list (string * list obj);
  _indexes : list (string * list (string * index));
  _changedCollections : list string;
  _lastActivity : Z;
  idleTimeout : Z;
  _idleTimer : bool;
  _isShuttingDown : bool;
  _isDumping : bool;
  _isInitialized : bool
}.

Record world : Type := mkWorld {
  jsm : JSM;
  disk : dir;
  (** [Date.now()] *)
  now : Z;
  (** how many times the random source was read *)
  drawn : nat
}.

Definition set_databases (x : list string) (s : JSM) : JSM :=
  mkJSM (storageMode s) x (_collections s) (_indexes s) (_changedCollections s)
    (_lastActivity s) (idleTimeout s) (_idleTimer s) (_isShuttingDown s)
    (_isDumping s) (_isInitialized s).

Definition set_collections (x : list (string * list obj)) (s : JSM) : JSM :=
  mkJSM (storageMode s) (_databases s) x (_indexes s) (_changedCollections s)
    (_lastActivity s) (idleTimeout s) (_idleTimer s) (_isShuttingDown s)
    (_isDumping s) (_isInitialized s).

Definition set_indexes (x : list (string * list (string * index))) (s : JSM)
  : JSM :=
  mkJSM (storageMode s) (_databases s) (_collections s) x (_changedCollections s)
    (_lastActivity s) (idleTimeout s) (_idleTimer s) (_isShuttingDown s)
    (_isDumping s) (_isInitialized s).

Definition set_changedCollections (x : list string) (s : JSM) : JSM :=
  mkJSM (storageMode s) (_databases s) (_collections s) (_indexes s) x
    (_lastActivity s) (idleTimeout s) (_idleTimer s) (_isShuttingDown s)
    (_isDumping s) (_isInitialized s).

Definition set_lastActivity (x : Z) (s : JSM) : JSM :=
  mkJSM (storageMode s) (_databases s) (_collections s) (_indexes s)
    (_changedCollections s) x (idleTimeout s) (_idleTimer s)
    (_isShuttingDown s) (_isDumping s) (_isInitialized s).

Definition set_idleTimer (x : bool) (s : JSM) : JSM :=
  mkJSM (storageMode s) (_databases s) (_collections s) (_indexes s)
    (_changedCollections s) (_lastActivity s) (idleTimeout s) x
    (_isShuttingDown s) (_isDumping s) (_isInitialized s).

Definition set_isDumping (x : bool) (s : JSM) : JSM :=
  mkJSM (storageMode s) (_databases s) (_collections s) (_indexes s)
    (_changedCollections s) (_lastActivity s) (idleTimeout s) (_idleTimer s)
    (_isShuttingDown s) x (_isInitialized s).

Definition set_isInitialized (x : bool) (s : JSM) : JSM :=
  mkJSM (storageMode s) (_databases s) (_collections s) (_indexes s)
    (_changedCollections s) (_lastActivity s) (idleTimeout s) (_idleTimer s)
    (_isShuttingDown s) (_isDumping s) x.

(** [new JSM(options)] at time [t]: an absent or empty option takes its
    default. *)
Definition new_JSM (mode : option string) (timeout : option Z) (t : Z) : JSM :=
  {| storageMode := match mode with
                    | Some m => if (m =? "")%string then "memory" else m
                    | None => "memory"
                    end;
     _databases := [];
     _collections := [];
     _indexes := [];
     _changedCollections := [];
     _lastActivity := t;
     idleTimeout := match timeout with
                    | Some ms => if (ms =? 0)%Z then 10000%Z else ms
                    | None => 10000%Z
                    end;
     _idleTimer := false;
     _isShuttingDown := false;
     _isDumping := false;
     _isInitialized := false |}.

(** [set.add(x)] on a [Set], which iterates in insertion order. *)
Definition set_add (x : string) (l : list string) : list string :=
  if existsb (String.eqb x) l then l else l ++ [x].

(* ----------------------------------------------------------------- *)
(** *** Methods as state transformers that may throw *)

Definition M (A : Type) : Type := world -> result A * world.

Definition ret {A : Type} (a : A) : M A := fun w => (Ok a, w).

Definition throw {A : Type} (e : error) : M A := fun w => (Throw e, w).

Definition bind {A B : Type} (m : M A) (k : A -> M B) : M B :=
  fun w =>
    match m w with
    | (Ok a, w') => k a w'
    | (Throw e, w') => (Throw e, w')
    end.

Definition lift {A : Type} (r : result A) : M A := fun w => (r, w).

Definition gets {A : Type} (f : JSM -> A) : M A := fun w => (Ok (f (jsm w)), w).

Definition modify (f : JSM -> JSM) : M unit :=
  fun w => (Ok tt, mkWorld (f (jsm w)) (disk w) (now w) (drawn w)).

(** [try { m } catch (err) { handler(err) }]. *)
Definition try_catch {A : Type} (m : M A) (handler : error -> M A) : M A :=
  fun w =>
    match m w with
    | (Ok a, w') => (Ok a, w')
    | (Throw e, w') => handler e w'
    end.

(** [try { m } finally { after }]. *)
Definition try_finally {A : Type} (m : M A) (after : M unit) : M A :=
  fun w =>
    match m w with
    | (Ok a, w') =>
        match after w' with
        | (Ok _, w'') => (Ok a, w'')
        | (Throw e, w'') => (Throw e, w'')
        end
    | (Throw e, w') =>
        match after w' with
        | (Ok _, w'') => (Throw e, w'')
        | (Throw e', w'') => (Throw e', w'')
        end
    end.

Notation "x <- m ;; k" := (bind m (fun x => k))
  (at level 61, m at next level, right associativity).

Definition message (e : error) : string :=
  match e with
  | TypeError what => what
  | Failure m => m
  end.

(* ----------------------------------------------------------------- *)
(** *** Names and paths *)

Definition fullName (dbName collectionName : string) : string :=
  (dbName ++ "." ++ collectionName)%string.

(** [s.split('.')]. *)
Fixpoint split_dot (s : string) : list string :=
  match s with
  | EmptyString => [""]
  | String c rest =>
      if Ascii.eqb c "."%char then "" :: split_dot rest
      else match split_dot rest with
           | h :: t => String c h :: t
           | [] => [String c ""]
           end
  end.

(** [s.endsWith(suffix)]. *)
Definition endsWith (s suffix : string) : bool :=
  (String.length suffix <=? String.length s)%nat
  && (substring (String.length s - String.length suffix)
        (String.length suffix) s =? suffix)%string.

(** [path.basename(s, '.json')] for an [s] that ends with ['.json']. *)
Definition basename_json (s : string) : string :=
  substring 0 (String.length s - 5) s.

(** The text a [${...}] interpolation gives for a destructured segment,
    ["undefined"] when the segment is missing. *)
Definition segment (i : nat) (parts : list string) : string :=
  nth i parts "undefined".

(* ----------------------------------------------------------------- *)
(** *** JSON *)

(** [JSON.parse(JSON.stringify(v))] for a [v] other than [undefined]:
    properties holding [undefined] are dropped and [undefined] array
    elements become [null]. *)
Fixpoint json_value (v : value) : value :=
  match v with
  | VArr items =>
      VArr (map (fun x => match x with
                          | VUndef => VNull
                          | _ => json_value x
                          end) items)
  | VObj fields =>
      VObj ((fix props (l : list (string * value)) : list (string * value) :=
               match l with
               | [] => []
               | (k, x) :: rest =>
                   match x with
                   | VUndef => props rest
                   | _ => (k, json_value x) :: props rest
                   end
               end) fields)
  | other => other
  end.

Definition json_doc (d : obj) : obj :=
  match json_value (VObj d) with
  | VObj fields => fields
  | _ => []
  end.

(* ================================================================= *)
(** ** The permission enforcer *)

(** [roles.some(callback)]: a [TypeError] when the receiver is not an
    array. *)
Fixpoint some_of (callback : value -> result bool) (items : list value)
  : result bool :=
  match items with
  | [] => Ok false
  | x :: rest =>
      let* hit := callback x in
      if hit then Ok true else some_of callback rest
  end.

Definition js_some (recv : value) (callback : value -> result bool)
  : result bool :=
  match recv with
  | VArr items => some_of callback items
  | _ => Throw (TypeError "some is not a function")
  end.

Definition hasPermission (user : value) (resource permission : string)
  : result bool :=
  if negb (truthy user) then Ok false
  else
    let* roles := get_prop user "roles" in
    if negb (truthy roles) then Ok false
    else
      let* admin :=
        js_some roles (fun role =>
          let* res := get_prop role "resource" in
          if strict_eq res (VStr "*") then
            let* permissions := get_prop role "permissions" in
            js_includes permissions (VStr "admin")
          else Ok false) in
      if admin then Ok true
      else
        js_some roles (fun role =>
          let* res := get_prop role "resource" in
          if strict_eq res (VStr resource)
             || strict_eq res (VStr (segment 0 (split_dot resource)))
             || strict_eq res (VStr "*")
          then
            let* permissions := get_prop role "permissions" in
            js_includes permissions (VStr permission)
          else Ok false).

Definition checkPermission (user : value) (resource permission : string)
  : result bool :=
  let* granted := hasPermission user resource permission in
  if negb granted then Ok false else Ok true.

(** The guard [!user || self.checkPermission(user, name, permission)]. *)
Definition absent_or_permitted (user : value) (resource permission : string)
  : result bool :=
  if negb (truthy user) then Ok true
  else checkPermission user resource permission.

(* ================================================================= *)
(** ** The index manager *)

(** [if (!index[value]) index[value] = []; index[value].push(i)]. *)
Definition index_push (key : string) (i : nat) (idx : index) : index :=
  match lookup key idx with
  | Some positions => set_prop key (positions ++ [i]) idx
  | None => set_prop key [i] idx
  end.

(** The scan of [createIndex], started at position [i]. *)
Fixpoint index_scan (field : string) (docs : list obj) (i : nat) (idx : index)
  : index :=
  match docs with
  | [] => idx
  | doc :: rest =>
      index_scan field rest (S i) (index_push (to_key (get doc field)) i idx)
  end.

(** [JSM.prototype.createIndex]. *)
Definition createIndex (dbName collectionName field : string) : M unit :=
  let fullCollectionName := fullName dbName collectionName in
  _ <- modify (fun s =>
         match lookup fullCollectionName (_indexes s) with
         | Some _ => s
         | None => set_indexes (set_prop fullCollectionName [] (_indexes s)) s
         end) ;;
  collection <- gets (fun s => lookup fullCollectionName (_collections s)) ;;
  match collection with
  | None => ret tt
  | Some docs =>
      let idx := index_scan field docs 0 [] in
      modify (fun s =>
        set_indexes
          (set_prop fullCollectionName
             (set_prop field idx
                match lookup fullCollectionName (_indexes s) with
                | Some fields => fields
                | None => []
                end)
             (_indexes s)) s)
  end.

(* ================================================================= *)
(** ** The store *)

Section Store.

Variable rt : runtime.

Definition padStart8 (s : string) : string :=
  (String.concat "" (repeat "0" (8 - String.length s)) ++ s)%string.

(** The identifier built at time [t] from the [k]-th read of the random
    source. *)
Definition objectId (t : Z) (k : nat) : string :=
  let timestamp := (t / 1000)%Z in
  let hexTimestamp :=
    padStart8 (HexadecimalString.NilZero.string_of_int (Z.to_hex_int timestamp)) in
  let randomId := random_hex rt k in
  (hexTimestamp ++ randomId)%string.

Definition _generateUniqueId : M string :=
  fun w =>
    (Ok (objectId (now w) (drawn w)),
     mkWorld (jsm w) (disk w) (now w) (S (drawn w))).

(** [updateActivity()]. *)
Definition updateActivity : M unit :=
  fun w => (Ok tt, mkWorld (set_lastActivity (now w) (jsm w)) (disk w) (now w) (drawn w)).

Definition updateActivity_on_disk : M unit :=
  mode <- gets storageMode ;;
  if (mode =? "disk")%string then updateActivity else ret tt.

Definition mark_changed (fullCollectionName : string) : M unit :=
  modify (fun s =>
    set_changedCollections (set_add fullCollectionName (_changedCollections s)) s).

(** The array held in [_collections[name]] after an in-place mutation. *)
Definition store_collection (fullCollectionName : string) (docs : list obj)
  : M unit :=
  modify (fun s => set_collections (set_prop fullCollectionName docs (_collections s)) s).

(** Using [undefined] as an array throws. *)
Definition the_array (collection : option (list obj)) : M (list obj) :=
  match collection with
  | Some docs => ret docs
  | None => throw (TypeError "Cannot read properties of undefined")
  end.

(** [db(dbName).collection(collectionName)], which hands out the methods
    below bound to the two names. *)
Definition collection (dbName collectionName : string) : M unit :=
  let fullCollectionName := fullName dbName collectionName in
  modify (fun s =>
    let s' := set_databases (set_add dbName (_databases s)) s in
    match lookup fullCollectionName (_collections s') with
    | Some _ => s'
    | None => set_collections (set_prop fullCollectionName [] (_collections s')) s'
    end).

(* ----------------------------------------------------------------- *)
(** *** insertOne, insertMany *)

Definition insertOne (dbName collectionName : string) (doc user : value)
  : M value :=
  let fullCollectionName := fullName dbName collectionName in
  allowed <- lift (absent_or_permitted user fullCollectionName "write") ;;
  if allowed then
    collection <- gets (fun s => lookup fullCollectionName (_collections s)) ;;
    id <- _generateUniqueId ;;
    let newDoc := set_prop "_id" (VStr id) (own_props doc) in
    docs <- the_array collection ;;
    _ <- store_collection fullCollectionName (docs ++ [newDoc]) ;;
    _ <- mark_changed fullCollectionName ;;
    _ <- updateActivity_on_disk ;;
    ret (VObj newDoc)
  else ret VNull.

(** [docs.map(doc => ({ ...doc, _id: self._generateUniqueId() }))]. *)
Fixpoint with_ids (docs : list value) : M (list obj) :=
  match docs with
  | [] => ret []
  | doc :: rest =>
      id <- _generateUniqueId ;;
      others <- with_ids rest ;;
      ret (set_prop "_id" (VStr id) (own_props doc) :: others)
  end.

Definition insertMany (dbName collectionName : string) (docs user : value)
  : M value :=
  let fullCollectionName := fullName dbName collectionName in
  allowed <- lift (absent_or_permitted user fullCollectionName "write") ;;
  if allowed then
    collection <- gets (fun s => lookup fullCollectionName (_collections s)) ;;
    newDocs <- match docs with
               | VArr items => with_ids items
               | _ => throw (TypeError "docs.map is not a function")
               end ;;
    old <- the_array collection ;;
    _ <- store_collection fullCollectionName (old ++ newDocs) ;;
    _ <- mark_changed fullCollectionName ;;
    _ <- updateActivity_on_disk ;;
    ret (VArr (map VObj newDocs))
  else ret VNull.

(* ----------------------------------------------------------------- *)
(** *** updateOne *)

(** The match phase: the first position whose document passes the
    filter, [None] for [matchedIndex === -1]. *)
Fixpoint first_match (filter : value) (docs : list obj) (i : nat)
  : result (option nat) :=
  match docs with
  | [] => Ok None
  | doc :: rest =>
      let* hit := _matchQuery rt (VObj doc) filter in
      if hit then Ok (Some i) else first_match filter rest (S i)
  end.

Fixpoint replace_at (i : nat) (x : obj) (docs : list obj) : list obj :=
  match docs, i with
  | [], _ => []
  | _ :: rest, O => x :: rest
  | d :: rest, S j => d :: replace_at j x rest
  end.

(** The in-place update of the matched document. *)
Definition apply_update (docToUpdate : obj) (update : value) : result obj :=
  let originalId := get docToUpdate "_id" in
  let* patch := get_prop update "$set" in
  let updated :=
    if truthy patch then
      let setData := delete_prop "_id" (own_props patch) in
      assign docToUpdate setData
    else
      let replacementData := delete_prop "_id" (own_props update) in
      assign (filter (fun kv => (fst kv =? "_id")%string) docToUpdate)
        replacementData in
  Ok (set_prop "_id" originalId updated).

(** The fields of the document an upsert creates, before its [_id]. *)
Definition upsert_data (filter update : value) : result obj :=
  let newDocData := own_props filter in
  let* patch := get_prop update "$set" in
  let merged :=
    if truthy patch then assign newDocData (own_props patch)
    else assign newDocData (own_props update) in
  Ok (delete_prop "_id" merged).

Definition update_report (matched modified : Z) (acknowledged : bool) : obj :=
  [("matchedCount", VNum matched); ("modifiedCount", VNum modified);
   ("acknowledged", VBool acknowledged)].

Definition updateOne (dbName collectionName : string)
  (filter update options user : value) : M value :=
  let fullCollectionName := fullName dbName collectionName in
  denied <- lift (if negb (truthy user) then Ok true
                  else let* granted :=
                         checkPermission user fullCollectionName "write" in
                       Ok (negb granted)) ;;
  if denied then
    ret (VObj (update_report 0 0 false ++ [("error", VStr "Permission denied")]))
  else
    collection <- gets (fun s => lookup fullCollectionName (_collections s)) ;;
    match collection with
    | None => ret (VObj (update_report 0 0 true))
    | Some docs =>
        let upsert := strict_eq (get_prop_opt options "upsert") (VBool true) in
        matchedIndex <- lift (first_match filter docs 0) ;;
        match matchedIndex with
        | Some i =>
            let docToUpdate := nth i docs [] in
            updated <- lift (apply_update docToUpdate update) ;;
            _ <- store_collection fullCollectionName (replace_at i updated docs) ;;
            _ <- mark_changed fullCollectionName ;;
            _ <- updateActivity_on_disk ;;
            ret (VObj (update_report 1 1 true))
        | None =>
            if upsert then
              newDocData <- lift (upsert_data filter update) ;;
              id <- _generateUniqueId ;;
              let newDoc := set_prop "_id" (VStr id) newDocData in
              _ <- store_collection fullCollectionName (docs ++ [newDoc]) ;;
              _ <- mark_changed fullCollectionName ;;
              _ <- updateActivity_on_disk ;;
              ret (VObj [("matchedCount", VNum 0); ("modifiedCount", VNum 1);
                         ("upsertedId", VStr id); ("acknowledged", VBool true);
                         ("upserted", VBool true)])
            else ret (VObj (update_report 0 0 true))
        end
    end.

(* ----------------------------------------------------------------- *)
(** *** deleteOne *)

(** [collection.splice(i, 1)]. *)
Definition splice1 (i : nat) (docs : list obj) : list obj :=
  firstn i docs ++ skipn (S i) docs.

(** The [for] loop of [deleteOne], from position [i] on: the array as the
    loop leaves it, the count, and the exception that cut it short. *)
Equations? delete_loop (filter : value) (docs : list obj) (i deletedCount : nat)
  : list obj * nat * option error by wf (length docs - i) lt :=
delete_loop filter docs i deletedCount with le_lt_dec (length docs) i := {
  | left _ => (docs, deletedCount, None)
  | right _ with _matchQuery rt (VObj (nth i docs [])) filter := {
    | Throw e => (docs, deletedCount, Some e)
    | Ok true => delete_loop filter (splice1 i docs) i (S deletedCount)
    | Ok false => delete_loop filter docs (S i) deletedCount } }.
Proof.
  - unfold splice1. rewrite length_app, length_firstn, length_skipn. lia.
  - lia.
Qed.

Definition deleteOne (dbName collectionName : string) (filter user : value)
  : M value :=
  let fullCollectionName := fullName dbName collectionName in
  allowed <- lift (absent_or_permitted user fullCollectionName "write") ;;
  if allowed then
    collection <- gets (fun s => lookup fullCollectionName (_collections s)) ;;
    docs <- the_array collection ;;
    match delete_loop filter docs 0 0 with
    | (remaining, deletedCount, failure) =>
        _ <- store_collection fullCollectionName remaining ;;
        _ <- (if (0 <? deletedCount)%nat then mark_changed fullCollectionName
              else ret tt) ;;
        match failure with
        | Some e => throw e
        | None =>
            _ <- updateActivity_on_disk ;;
            ret (VNum (Z.of_nat deletedCount))
        end
    end
  else ret (VNum 0).

(* ----------------------------------------------------------------- *)
(** *** find, createIndex *)

(** [collection[position]]. *)
Definition element (docs : list obj) (position : nat) : value :=
  match nth_error docs position with
  | Some doc => VObj doc
  | None => VUndef
  end.

(** The index branch of [find]: [Some results] when the query has exactly
    one key and that key has an index, [None] to fall through to the scan. *)
Definition find_by_index (s : JSM) (fullCollectionName : string)
  (docs : list obj) (query : value) : result (option (list value)) :=
  let* entries := object_entries query in
  match entries with
  | [(key, _)] =>
      match lookup fullCollectionName (_indexes s) with
      | Some fields =>
          match lookup key fields with
          | Some idx =>
              let* v := get_prop query key in
              match lookup (to_key v) idx with
              | Some positions => Ok (Some (map (element docs) positions))
              | None => Ok (Some [])
              end
          | None => Ok None
          end
      | None => Ok None
      end
  | _ => Ok None
  end.

(** The full scan of [find]. *)
Fixpoint scan (query : value) (docs : list obj) : result (list value) :=
  match docs with
  | [] => Ok []
  | doc :: rest =>
      let* hit := _matchQuery rt (VObj doc) query in
      let* more := scan query rest in
      Ok (if hit then VObj doc :: more else more)
  end.

Definition find (dbName collectionName : string) (query user : value) (s : JSM)
  : result (list value) :=
  let fullCollectionName := fullName dbName collectionName in
  let query := match query with VUndef => VObj [] | _ => query end in
  let* allowed := absent_or_permitted user fullCollectionName "read" in
  if allowed then
    match lookup fullCollectionName (_collections s) with
    | None => Ok []
    | Some docs =>
        let* indexed := find_by_index s fullCollectionName docs query in
        match indexed with
        | Some results => Ok results
        | None => scan query docs
        end
    end
  else Ok [].

(** The [createIndex] method of a collection. *)
Definition collection_createIndex (dbName collectionName field : string)
  (user : value) : M value :=
  let fullCollectionName := fullName dbName collectionName in
  allowed <- lift (absent_or_permitted user fullCollectionName "write") ;;
  if allowed then
    _ <- createIndex dbName collectionName field ;;
    ret (VBool true)
  else ret (VBool false).

(* ----------------------------------------------------------------- *)
(** *** registerUser *)

Definition default_roles : value :=
  VArr [VObj [("resource", VStr "*"); ("permissions", VArr [VStr "read"])]].

Definition registerUser (username password : string) (roles : value) : M value :=
  let roles := match roles with VUndef => VArr [] | _ => roles end in
  _ <- collection "auth" "users" ;;
  existingUsers <- (fun w =>
      (find "auth" "users" (VObj [("username", VStr username)]) VUndef (jsm w), w)) ;;
  if (0 <? length existingUsers)%nat then
    throw (Failure ("User " ++ username ++ " already exists"))
  else
    let roles :=
      if negb (truthy roles)
         || strict_eq (get_prop_opt roles "length") (VNum 0)
      then default_roles else roles in
    let hash := bcrypt_hash rt password in
    _ <- collection "auth" "users" ;;
    insertOne "auth" "users"
      (VObj [("username", VStr username); ("password", VStr hash);
             ("roles", roles)])
      VUndef.

(* ----------------------------------------------------------------- *)
(** *** Persistence *)

(** [fs.mkdir(path.join(storagePath, name), { recursive: true })]. *)
Definition mkdir (name : string) (d : dir) : result dir :=
  match lookup name d with
  | Some (FDir _) => Ok d
  | Some (FFile _) => Throw (Failure "EEXIST: file already exists")
  | None => Ok (set_prop name (FDir []) d)
  end.

(** [fs.writeFile] of file [fileName] in directory [dirName]. *)
Definition writeFile (dirName fileName : string) (content : option (list obj))
  (d : dir) : result dir :=
  match lookup dirName d with
  | Some (FDir entries) =>
      match lookup fileName entries with
      | Some (FDir _) => Throw (Failure "EISDIR: illegal operation on a directory")
      | _ => Ok (set_prop dirName (FDir (set_prop fileName (FFile content) entries)) d)
      end
  | _ => Throw (Failure "ENOENT: no such file or directory")
  end.

Definition set_disk (d : dir) (w : world) : world :=
  mkWorld (jsm w) d (now w) (drawn w).

(** [data] is [None] when [_collections[name]] is [undefined], which
    [JSON.stringify] maps to [undefined] and [fs.writeFile] refuses. *)
Definition _persistCollection (dbName collectionName : string)
  (data : option (list obj)) : M unit :=
  fun w =>
    if (storageMode (jsm w) =? "disk")%string then
      match mkdir dbName (disk w) with
      | Throw e => (Throw e, w)
      | Ok d1 =>
          let fileName := (collectionName ++ ".json")%string in
          match data with
          | None =>
              (Throw (TypeError "The data argument must be of type string"),
               set_disk d1 w)
          | Some docs =>
              if write_fails rt dbName fileName then
                (Throw (Failure "EIO: write failed"), set_disk d1 w)
              else
                match writeFile dbName fileName (Some (map json_doc docs)) d1 with
                | Ok d2 => (Ok tt, set_disk d2 w)
                | Throw e => (Throw e, set_disk d1 w)
                end
          end
      end
    else (Ok tt, w).

(** The body of the [for ... of this._changedCollections] loop, over the
    names still to visit. *)
Fixpoint dump_each (names : list string) : M unit :=
  match names with
  | [] => ret tt
  | fullCollectionName :: rest =>
      let parts := split_dot fullCollectionName in
      let dbName := segment 0 parts in
      let collectionName := segment 1 parts in
      data <- gets (fun s => lookup fullCollectionName (_collections s)) ;;
      _ <- _persistCollection dbName collectionName data ;;
      dump_each rest
  end.

Definition _dumpChangedCollections : M unit :=
  names <- gets _changedCollections ;;
  _ <- dump_each names ;;
  modify (set_changedCollections []).

(** The test of the interval callback: idle for longer than the timeout,
    with something to dump. *)
Definition idle_dump_due (w : world) : bool :=
  ((idleTimeout (jsm w) <? now w - _lastActivity (jsm w))%Z
   && (0 <? length (_changedCollections (jsm w)))%nat)%bool.

(** One firing of the interval callback installed by [_startIdleDump]; the
    [catch] only logs. *)
Definition idle_tick : M unit :=
  fun w =>
    if idle_dump_due w
    then try_catch _dumpChangedCollections (fun err => ret tt) w
    else (Ok tt, w).

Definition _startIdleDump : M unit := modify (set_idleTimer true).

(** The inner loop of [_dumpAllData] for one database. *)
Fixpoint dump_named (dbName : string) (names : list string) : M unit :=
  match names with
  | [] => ret tt
  | fullCollectionName :: rest =>
      let collectionName := last (split_dot fullCollectionName) "" in
      data <- gets (fun s => lookup fullCollectionName (_collections s)) ;;
      _ <- _persistCollection dbName collectionName data ;;
      dump_named dbName rest
  end.

Fixpoint dump_databases (dbNames : list string) : M unit :=
  match dbNames with
  | [] => ret tt
  | dbName :: rest =>
      keys <- gets (fun s => map fst (_collections s)) ;;
      let collections :=
        filter (fun key => String.prefix (dbName ++ ".") key) keys in
      _ <- dump_named dbName collections ;;
      dump_databases rest
  end.

Definition _dumpAllData : M unit :=
  dumping <- gets _isDumping ;;
  if dumping then ret tt
  else
    _ <- modify (set_isDumping true) ;;
    try_finally
      (_ <- _dumpChangedCollections ;;
       dbNames <- gets _databases ;;
       dump_databases dbNames)
      (modify (set_isDumping false)).

Definition close : M unit :=
  _ <- modify (set_idleTimer false) ;;
  _ <- _dumpAllData ;;
  modify (fun s => set_indexes [] (set_collections [] (set_databases [] s))).

(** The inner loop of [_loadPersistedData] over one database directory. *)
Fixpoint load_collections (dbName : string) (collectionFiles : dir) : M unit :=
  match collectionFiles with
  | [] => ret tt
  | (collFile, node) :: rest =>
      if endsWith collFile ".json" then
        let collectionName := basename_json collFile in
        match node with
        | FFile (Some docs) =>
            _ <- store_collection (fullName dbName collectionName) docs ;;
            load_collections dbName rest
        | FFile None =>
            throw (Failure ("Error reading collection " ++ collectionName
                            ++ ": Unexpected token in JSON"))
        | FDir _ =>
            throw (Failure ("Error reading collection " ++ collectionName
                            ++ ": EISDIR: illegal operation on a directory"))
        end
      else load_collections dbName rest
  end.

Fixpoint load_databases (dbFiles : dir) : M unit :=
  match dbFiles with
  | [] => ret tt
  | (file, FDir collectionFiles) :: rest =>
      _ <- modify (fun s => set_databases (set_add file (_databases s)) s) ;;
      _ <- load_collections file collectionFiles ;;
      load_databases rest
  | (_, FFile _) :: rest => load_databases rest
  end.

Definition _loadPersistedData : M unit :=
  try_catch
    (fun w => load_databases (disk w) w)
    (fun err => throw (Failure ("Error loading persisted data: " ++ message err))).

(** The modelled tree always has its root, so there is nothing to create. *)
Definition _ensureStorageDirectory : M unit := ret tt.

Definition _ensureAdminUser : M unit :=
  let fullCollectionName := "auth.users" in
  _ <- modify (fun s =>
         match lookup fullCollectionName (_collections s) with
         | Some _ => s
         | None => set_collections (set_prop fullCollectionName [] (_collections s)) s
         end) ;;
  users <- gets (fun s => lookup fullCollectionName (_collections s)) ;;
  match users with
  | Some [] =>
      let adminPassword := bcrypt_hash rt "admin" in
      id <- _generateUniqueId ;;
      let adminUser :=
        [("_id", VStr id); ("username", VStr "admin");
         ("password", VStr adminPassword);
         ("roles", VArr [VObj [("resource", VStr "*");
                               ("permissions",
                                VArr [VStr "read"; VStr "write"; VStr "admin"])]])] in
      _ <- store_collection fullCollectionName [adminUser] ;;
      mark_changed fullCollectionName
  | _ => ret tt
  end.

(** Installing the signal handlers changes nothing the model tracks. *)
Definition _setupSignalHandlers : M unit := ret tt.

Definition initialize : M unit :=
  try_catch
    (_ <- _ensureStorageDirectory ;;
     _ <- _loadPersistedData ;;
     mode <- gets storageMode ;;
     _ <- (if (mode =? "disk")%string then _startIdleDump else ret tt) ;;
     _ <- _setupSignalHandlers ;;
     _ <- _ensureAdminUser ;;
     modify (set_isInitialized true))
    (fun err => throw err).

End Store.

(* ================================================================= *)
(** ** Vocabulary of the properties *)

(** The matcher's verdict on a document, an exception counting as "no". *)
Definition matches (rt : runtime) (filter : value) (doc : obj) : bool :=
  match _matchQuery rt (VObj doc) filter with
  | Ok b => b
  | Throw _ => false
  end.






(** The fields an update brings: those of its [$set] when that is
    truthy, its own otherwise. *)
Definition update_fields (update : obj) : obj :=
  if truthy (get update "$set") then own_props (get update "$set") else update.

(** The literal (equality) fields of a filter, as opposed to its operator
    clauses. *)
Definition literal_fields (filter : obj) : obj :=
  List.filter (fun kv => negb (is_object (snd kv))) filter.

(** As the description states the upsert: the new document's fields,
    identifier apart, are the filter's literal fields overlaid by the
    update's. *)
Definition spec_upsert_from_literal_fields (rt : runtime) : Prop :=
  forall (dbName collectionName : string) (query update : obj)
         (options user : value) (w : world) (docs : list obj),
    truthy user = true ->
    checkPermission user (fullName dbName collectionName) "write" = Ok true ->
    lookup (fullName dbName collectionName) (_collections (jsm w)) = Some docs ->
    Forall (fun x => matches rt (VObj query) x = false) docs ->
    strict_eq (get_prop_opt options "upsert") (VBool true) = true ->
    exists newDoc,
      lookup (fullName dbName collectionName)
        (_collections
           (jsm (snd (updateOne rt dbName collectionName (VObj query)
                        (VObj update) options user w))))
      = Some (docs ++ [newDoc])
      /\ forall k, k <> "_id" ->
           lookup k newDoc
           = lookup k (assign (literal_fields query) (update_fields update)).







(* ================================================================= *)
(** ** Sample runtime and data *)

(** A runtime for the worked examples: integers compare as integers and
    nothing else is ordered, the random source counts, no write fails. *)
Definition sample_rel (op : relop) (a b : value) : bool :=
  match a, b with
  | VNum x, VNum y =>
      match op with
      | Gt => (y <? x)%Z
      | Lt => (x <? y)%Z
      | Gte => (y <=? x)%Z
      | Lte => (x <=? y)%Z
      end
  | _, _ => false
  end.

Definition sample_rt : runtime :=
  {| rel := sample_rel;
     random_hex := fun n => ("00000000000000000000000" ++ nat_key n)%string;
     bcrypt_hash := fun password => ("$2b$10$" ++ password)%string;
     write_fails := fun _ _ => false |}.

(** A store fresh from its constructor, in a world whose disk, clock and
    random source are arbitrary. *)
Definition fresh_world (mode : option string) (timeout : option Z)
  (d : dir) (t : Z) (n : nat) : world :=
  mkWorld (new_JSM mode timeout t) d t n.




Definition doc_named (name id : string) : obj :=
  [("name", VStr name); ("_id", VStr id)].

Definition three_docs : list obj :=
  [doc_named "Beta" "id1"; doc_named "Alpha" "id2"; doc_named "Beta" "id3"].

(** A store of the given mode whose only collection is [test.one]. *)
Definition sample_store (mode : string) (docs : list obj) : JSM :=
  set_collections [("test.one", docs)]
    (set_databases ["test"] (new_JSM (Some mode) None 0)).

Definition sample_world (mode : string) (docs : list obj) : world :=
  mkWorld (sample_store mode docs) [] 5000 0.

Definition admin_user : value :=
  VObj [("username", VStr "admin");
        ("roles", VArr [VObj [("resource", VStr "*");
                              ("permissions",
                               VArr [VStr "read"; VStr "write"; VStr "admin"])]])].

Definition range_query : obj := [("age", VObj [("$gt", VNum 100)])].

Definition set_name_update : obj := [("$set", VObj [("name", VStr "Zeta")])].

Definition upsert_option : value := VObj [("upsert", VBool true)].

Definition alpha_query : value := VObj [("name", VStr "Alpha")].
Definition beta_query : value := VObj [("name", VStr "Beta")].

(** Insert Alpha, insert Beta, index [name]. *)
Definition alpha_beta_indexed (rt : runtime) (w : world) : world :=
  let w1 := snd (collection "test" "one" w) in
  let w2 := snd (insertOne rt "test" "one" alpha_query VUndef w1) in
  let w3 := snd (insertOne rt "test" "one" beta_query VUndef w2) in
  snd (collection_createIndex "test" "one" "name" VUndef w3).

(** A runtime whose disk refuses the file of collection [a.x] only. *)
Definition failing_rt : runtime :=
  {| rel := sample_rel;
     random_hex := random_hex sample_rt;
     bcrypt_hash := bcrypt_hash sample_rt;
     write_fails := fun d f => ((d =? "a") && (f =? "x.json"))%string |}.


(** A storage directory left by an earlier run: database [test] with the
    file [one.json]. *)
Definition persisted_disk : dir :=
  [("test", FDir [("one.json", FFile (Some [doc_named "Alpha" "a1"]))])].

(** A disk-mode store in which one document was inserted into collection
    [user.events] of database [app]. *)
Definition dotted_world : world :=
  let w0 := fresh_world (Some "disk") None [] 0 0 in
  let w1 := snd (collection "app" "user.events" w0) in
  snd (insertOne sample_rt "app" "user.events"
         (VObj [("kind", VStr "login")]) VUndef w1).

(** The store after a restart on the disk that [w] leaves behind. *)
Definition restart (w : world) : world :=
  fresh_world (Some "disk") None (disk w) (now w) (drawn w).

(* ================================================================= *)
(** ** Vocabulary of the further properties *)

(** A role grant in the shape [registerUser] and [_ensureAdminUser] store
    it: an object whose [permissions] is an array. *)
Definition well_formed_grant (role : value) : bool :=
  match role with
  | VObj grant => is_array (get grant "permissions")
  | _ => false
  end.

(** The [resource] a grant is scoped to. *)
Definition grant_scope (role : value) : value :=
  match role with
  | VObj grant => get grant "resource"
  | _ => VUndef
  end.

(** Whether the grant's [permissions] array lists the permission. *)
Definition grant_lists (role : value) (permission : string) : bool :=
  match role with
  | VObj grant =>
      match get grant "permissions" with
      | VArr permissions => existsb (strict_eq (VStr permission)) permissions
      | _ => false
      end
  | _ => false
  end.

(** A grant on every resource that lists [admin]. *)
Definition admin_wildcard (role : value) : bool :=
  strict_eq (grant_scope role) (VStr "*") && grant_lists role "admin".

(** A grant that lists the permission and is scoped to the resource, to
    the text before its first dot, or to every resource. *)
Definition grant_covers (resource permission : string) (role : value) : bool :=
  (strict_eq (grant_scope role) (VStr resource)
   || strict_eq (grant_scope role) (VStr (segment 0 (split_dot resource)))
   || strict_eq (grant_scope role) (VStr "*"))
  && grant_lists role permission.

(** A user document with the given grants. *)
Definition user_with (roles : list value) : obj :=
  [("username", VStr "someone"); ("roles", VArr roles)].

Definition grant (resource : string) (permissions : list string) : value :=
  VObj [("resource", VStr resource);
        ("permissions", VArr (map VStr permissions))].

(** The positions, counted from [i], of the documents whose field coerces
    to the key. *)
Fixpoint positions (field key : string) (docs : list obj) (i : nat) : list nat :=
  match docs with
  | [] => []
  | doc :: rest =>
      if (to_key (get doc field) =? key)%string
      then i :: positions field key rest (S i)
      else positions field key rest (S i)
  end.


Definition range_clause : obj :=
  [("age", VObj [("$gte", VNum 18); ("$lte", VNum 65)])].


(** [insertOne] once per item, in order: what [insertMany] is compared
    with. *)
Fixpoint insert_each (rt : runtime) (dbName collectionName : string)
  (items : list value) (user : value) : M (list value) :=
  match items with
  | [] => ret []
  | item :: rest =>
      stored <- insertOne rt dbName collectionName item user ;;
      others <- insert_each rt dbName collectionName rest user ;;
      ret (stored :: others)
  end.

(** The items as stored at time [t], the first with the [k]-th draw of
    the random source. *)
Fixpoint stamped (rt : runtime) (t : Z) (k : nat) (items : list value)
  : list obj :=
  match items with
  | [] => []
  | item :: rest =>
      set_prop "_id" (VStr (objectId rt t k)) (own_props item)
      :: stamped rt t (S k) rest
  end.

(** The world once collection [fullCollectionName] has become [docs'] by
    inserts that drew [n] identifiers: the collection is dirty, and in
    disk mode the activity clock is reset. *)
Definition inserted (fullCollectionName : string) (docs' : list obj) (n : nat)
  (w : world) : world :=
  mkWorld
    ((if (storageMode (jsm w) =? "disk")%string
      then set_lastActivity (now w) else fun s => s)
       (set_changedCollections
          (set_add fullCollectionName (_changedCollections (jsm w)))
          (set_collections
             (set_prop fullCollectionName docs' (_collections (jsm w)))
             (jsm w))))
    (disk w) (now w) (n + drawn w).

(** A file [_loadPersistedData] can parse. *)
Definition parseable (node : fnode) : bool :=
  match node with
  | FFile (Some _) => true
  | _ => false
  end.

(** A storage directory the store can always write into and read back:
    every entry of the root is a database directory, and every entry of a
    database directory is a parseable file. *)
Definition database_dir (node : fnode) : bool :=
  match node with
  | FDir files => forallb (fun f => parseable (snd f)) files
  | FFile _ => false
  end.

Definition tidy (d : dir) : bool := forallb (fun e => database_dir (snd e)) d.

(** What loading leaves alone. *)
Definition same_but_data (w w' : world) : Prop :=
  disk w' = disk w /\ now w' = now w /\ drawn w' = drawn w
  /\ storageMode (jsm w') = storageMode (jsm w)
  /\ _indexes (jsm w') = _indexes (jsm w)
  /\ _changedCollections (jsm w') = _changedCollections (jsm w)
  /\ _idleTimer (jsm w') = _idleTimer (jsm w)
  /\ _isInitialized (jsm w') = _isInitialized (jsm w).


(** The user [_ensureAdminUser] creates, with identifier [id]. *)
Definition default_admin (rt : runtime) (id : string) : obj :=
  [("_id", VStr id); ("username", VStr "admin");
   ("password", VStr (bcrypt_hash rt "admin"));
   ("roles", VArr [VObj [("resource", VStr "*");
                         ("permissions",
                          VArr [VStr "read"; VStr "write"; VStr "admin"])]])].


(** A storage directory whose file [test/one.json] does not parse. *)
Definition corrupt_disk : dir :=
  [("test", FDir [("notes.txt", FFile None); ("one.json", FFile None)])].

(** The roles [registerUser] stores for the roles it is given. *)
Definition stored_roles (roles : value) : value :=
  let roles := match roles with VUndef => VArr [] | _ => roles end in
  if negb (truthy roles) || strict_eq (get_prop_opt roles "length") (VNum 0)
  then default_roles else roles.

(** The user document [registerUser] stores, with identifier [id]. *)
Definition registered_user (rt : runtime) (username password : string)
  (roles : value) (id : string) : obj :=
  [("username", VStr username); ("password", VStr (bcrypt_hash rt password));
   ("roles", stored_roles roles); ("_id", VStr id)].

(** A [bcrypt.compare] for the sample runtime's hash. *)
Definition sample_compare (password hash : string) : bool :=
  (hash =? bcrypt_hash sample_rt password)%string.

(* ----------------------------------------------------------------- *)
(** *** loginUser *)

Section Login.

Variable rt : runtime.

(** [bcrypt.compare(password, hash)] on two strings. *)
Variable bcrypt_compare : string -> string -> bool.

Definition loginUser (username password : string) : M value :=
  _ <- collection "auth" "users" ;;
  users <- (fun w =>
      (find rt "auth" "users" (VObj [("username", VStr username)]) VUndef (jsm w), w)) ;;
  match users with
  | [] => ret VNull
  | user :: _ =>
      hash <- lift (get_prop user "password") ;;
      match hash with
      | VStr h => if bcrypt_compare password h then ret user else ret VNull
      | VUndef | VNull => throw (Failure "data and hash arguments required")
      | _ => throw (Failure "data and hash must be strings")
      end
  end.

End Login.

(* ================================================================= *)
(** ** Properties *)

(* ----------------------------------------------------------------- *)
(** *** Property tables *)

Lemma lookup_set_prop_same {A : Type} (k : string) (v : A) (o : list (string * A)) :
  lookup k (set_prop k v o) = Some v.
Proof.
  induction o as [|[k' v'] o IH]; simpl.
  - now rewrite String.eqb_refl.
  - destruct (k =? k')%string eqn:E; simpl.
    + now rewrite String.eqb_refl.
    + now rewrite E.
Qed.

Lemma lookup_set_prop_other {A : Type} (k k' : string) (v : A)
  (o : list (string * A)) :
  k <> k' -> lookup k (set_prop k' v o) = lookup k o.
Proof.
  intros Hne. induction o as [|[k0 v0] o IH]; simpl.
  - apply String.eqb_neq in Hne. now rewrite Hne.
  - destruct (k' =? k0)%string eqn:E; simpl.
    + apply String.eqb_eq in E. subst k0.
      apply String.eqb_neq in Hne. now rewrite Hne.
    + now rewrite IH.
Qed.

Lemma lookup_delete_prop_same {A : Type} (k : string) (o : list (string * A)) :
  lookup k (delete_prop k o) = None.
Proof.
  induction o as [|[k0 v0] o IH]; simpl; auto.
  destruct (k =? k0)%string eqn:E; simpl; auto.
  now rewrite E.
Qed.

Lemma lookup_delete_prop_other {A : Type} (k k' : string) (o : list (string * A)) :
  k <> k' -> lookup k (delete_prop k' o) = lookup k o.
Proof.
  intros Hne. induction o as [|[k0 v0] o IH]; simpl; auto.
  destruct (k' =? k0)%string eqn:E; simpl.
  - apply String.eqb_eq in E. subst k0.
    apply String.eqb_neq in Hne. now rewrite Hne.
  - now rewrite IH.
Qed.

(* ----------------------------------------------------------------- *)
(** *** The matcher *)

Section MatcherProperties.

Variable rt : runtime.

Lemma match_operator_total (doc : obj) (key operator : string) (compValue : value) :
  exists b, match_operator rt (VObj doc) key operator compValue = Ok b.
Proof.
  unfold match_operator.
  repeat match goal with
         | |- context [if ?c then _ else _] => destruct c eqn:?
         end; simpl; eauto.
  all: destruct compValue; simpl in *; try discriminate; eauto.
Qed.

Lemma match_operators_total (doc : obj) (key : string) (ops : obj) :
  exists b, match_operators rt (VObj doc) key ops = Ok b.
Proof.
  induction ops as [|[operator compValue] ops IH]; simpl; eauto.
  destruct (match_operator_total doc key operator compValue) as [b Hb].
  rewrite Hb. simpl. destruct b; eauto.
Qed.

Lemma match_entries_total (doc : obj) (entries : obj) :
  exists b, match_entries rt (VObj doc) entries = Ok b.
Proof.
  induction entries as [|[key v] entries IH]; simpl; eauto.
  destruct (is_object v).
  - destruct (match_operators_total doc key (own_props v)) as [b Hb].
    rewrite Hb. simpl. destruct b; eauto.
  - simpl. destruct (negb (strict_eq (get doc key) v)); eauto.
Qed.

(** On a document, the matcher returns its verdict and never throws. *)
Lemma _matchQuery_total (doc query : obj) :
  _matchQuery rt (VObj doc) (VObj query) = Ok (matches rt (VObj query) doc).
Proof.
  unfold matches.
  destruct (match_entries_total doc query) as [b Hb].
  unfold _matchQuery. simpl. now rewrite Hb.
Qed.





End MatcherProperties.




(* ----------------------------------------------------------------- *)
(** *** deleteOne *)

Lemma skipn_nth_cons {A : Type} (i : nat) (l : list A) (d : A) :
  i < length l -> skipn i l = nth i l d :: skipn (S i) l.
Proof.
  revert i. induction l as [|x l IH]; intros i Hi; simpl in *; try lia.
  destruct i; simpl; auto. apply IH. lia.
Qed.

Lemma firstn_S_nth {A : Type} (i : nat) (l : list A) (d : A) :
  i < length l -> firstn (S i) l = firstn i l ++ [nth i l d].
Proof.
  revert i. induction l as [|x l IH]; intros i Hi; simpl in *; try lia.
  destruct i; simpl; auto. f_equal. apply IH. lia.
Qed.

Lemma firstn_splice1 (i : nat) (docs : list obj) :
  i <= length docs -> firstn i (splice1 i docs) = firstn i docs.
Proof.
  intros Hi. unfold splice1.
  rewrite firstn_app, length_firstn, Nat.min_l by lia.
  rewrite Nat.sub_diag. simpl. rewrite app_nil_r.
  apply firstn_all2. rewrite length_firstn. lia.
Qed.

Lemma skipn_splice1 (i : nat) (docs : list obj) :
  i <= length docs -> skipn i (splice1 i docs) = skipn (S i) docs.
Proof.
  intros Hi. unfold splice1.
  rewrite skipn_app, length_firstn, Nat.min_l by lia.
  rewrite Nat.sub_diag. simpl.
  rewrite skipn_all2; auto. rewrite length_firstn. lia.
Qed.

Lemma length_splice1 (i : nat) (docs : list obj) :
  i < length docs -> length (splice1 i docs) = length docs - 1.
Proof.
  intros Hi. unfold splice1.
  rewrite length_app, length_firstn, length_skipn. lia.
Qed.

Lemma length_filter_negb {A : Type} (f : A -> bool) (l : list A) :
  length (filter (fun x => negb (f x)) l) = length l - length (filter f l).
Proof.
  induction l as [|x l IH]; cbn [filter length]; auto.
  pose proof (filter_length_le f l) as Hle.
  destruct (f x); cbn [negb length]; lia.
Qed.

(** The loop of [deleteOne] keeps the documents before position [i] and,
    from [i] on, exactly those the filter rejects. *)
Lemma delete_loop_spec (rt : runtime) (query : obj) (docs : list obj) (i n : nat) :
  i <= length docs ->
  delete_loop rt (VObj query) docs i n
  = (firstn i docs
       ++ filter (fun d => negb (matches rt (VObj query) d)) (skipn i docs),
     n + length (filter (matches rt (VObj query)) (skipn i docs)),
     None).
Proof.
  remember (VObj query) as q eqn:Eq.
  funelim (delete_loop rt q docs i n); intros Hle; clear Heqcall.
  - rewrite skipn_all2 by lia. rewrite firstn_all2 by lia. simpl.
    rewrite app_nil_r. now rewrite Nat.add_0_r.
  - rewrite (H query eq_refl) by (rewrite length_splice1; lia).
    rewrite firstn_splice1, skipn_splice1 by lia.
    rewrite (skipn_nth_cons i docs []) by lia. simpl.
    assert (Hm : matches rt (VObj query) (nth i docs []) = true)
      by (unfold matches; now rewrite Heq).
    rewrite Hm. simpl. f_equal. f_equal. lia.
  - rewrite (H query eq_refl) by lia.
    rewrite (firstn_S_nth i docs []) by lia.
    rewrite (skipn_nth_cons i docs []) by lia. simpl.
    assert (Hm : matches rt (VObj query) (nth i docs []) = false)
      by (unfold matches; now rewrite Heq).
    rewrite Hm. simpl. now rewrite <- app_assoc.
  - rewrite _matchQuery_total in Heq. discriminate Heq.
Qed.

(* ----------------------------------------------------------------- *)
(** *** Effects of the collection methods *)

Lemma absent_user_passes (resource permission : string) :
  absent_or_permitted VUndef resource permission = Ok true.
Proof. reflexivity. Qed.

(** What a permitted [insertOne] does to the world. *)
Lemma insertOne_effect (rt : runtime) (dbName collectionName : string)
  (doc user : value) (w : world) (docs : list obj) :
  absent_or_permitted user (fullName dbName collectionName) "write" = Ok true ->
  lookup (fullName dbName collectionName) (_collections (jsm w)) = Some docs ->
  let newDoc :=
    set_prop "_id" (VStr (objectId rt (now w) (drawn w))) (own_props doc) in
  exists w',
    insertOne rt dbName collectionName doc user w = (Ok (VObj newDoc), w')
    /\ _collections (jsm w')
       = set_prop (fullName dbName collectionName) (docs ++ [newDoc])
           (_collections (jsm w))
    /\ _indexes (jsm w') = _indexes (jsm w)
    /\ storageMode (jsm w') = storageMode (jsm w)
    /\ disk w' = disk w /\ now w' = now w /\ drawn w' = S (drawn w).
Proof.
  intros Hguard Hdocs newDoc. subst newDoc.
  unfold insertOne, bind, lift. rewrite Hguard.
  unfold gets at 1. cbv beta iota. rewrite Hdocs.
  unfold _generateUniqueId, the_array, store_collection, mark_changed,
    updateActivity_on_disk, updateActivity, modify, gets, bind, ret.
  cbn [jsm disk now drawn storageMode _collections _indexes set_collections
       set_changedCollections set_lastActivity].
  destruct (storageMode (jsm w) =? "disk")%string;
    eexists; repeat split; reflexivity.
Qed.

(** What a permitted [createIndex] on an existing collection does. *)
Lemma collection_createIndex_effect (dbName collectionName field : string)
  (user : value) (w : world) (docs : list obj) :
  absent_or_permitted user (fullName dbName collectionName) "write" = Ok true ->
  lookup (fullName dbName collectionName) (_collections (jsm w)) = Some docs ->
  exists w' fields,
    collection_createIndex dbName collectionName field user w = (Ok (VBool true), w')
    /\ _collections (jsm w') = _collections (jsm w)
    /\ lookup (fullName dbName collectionName) (_indexes (jsm w')) = Some fields
    /\ lookup field fields = Some (index_scan field docs 0 [])
    /\ storageMode (jsm w') = storageMode (jsm w)
    /\ disk w' = disk w /\ now w' = now w /\ drawn w' = drawn w.
Proof.
  intros Hguard Hdocs.
  unfold collection_createIndex, createIndex, bind, lift. rewrite Hguard.
  unfold modify at 1, gets at 1.
  cbn [jsm disk now drawn].
  assert (Hsame : forall s, _collections
            match lookup (fullName dbName collectionName) (_indexes s) with
            | Some _ => s
            | None => set_indexes
                        (set_prop (fullName dbName collectionName) [] (_indexes s)) s
            end = _collections s)
    by (intros s; destruct (lookup _ (_indexes s)); reflexivity).
  rewrite Hsame, Hdocs.
  unfold modify, ret. cbn [jsm disk now drawn].
  do 2 eexists. split; [reflexivity|].
  cbn [jsm disk now drawn storageMode _collections _indexes set_indexes].
  split; [apply Hsame|].
  split; [apply lookup_set_prop_same|].
  split; [apply lookup_set_prop_same|].
  destruct (lookup (fullName dbName collectionName) (_indexes (jsm w)));
    repeat split; reflexivity.
Qed.

(** What a permitted [deleteOne] does to the world. *)
Lemma deleteOne_effect (rt : runtime) (dbName collectionName : string)
  (query : obj) (user : value) (w : world) (docs : list obj) :
  absent_or_permitted user (fullName dbName collectionName) "write" = Ok true ->
  lookup (fullName dbName collectionName) (_collections (jsm w)) = Some docs ->
  exists w',
    deleteOne rt dbName collectionName (VObj query) user w
      = (Ok (VNum (Z.of_nat (length (filter (matches rt (VObj query)) docs)))), w')
    /\ _collections (jsm w')
       = set_prop (fullName dbName collectionName)
           (filter (fun d => negb (matches rt (VObj query) d)) docs)
           (_collections (jsm w))
    /\ _indexes (jsm w') = _indexes (jsm w).
Proof.
  intros Hguard Hdocs.
  unfold deleteOne, bind, lift. rewrite Hguard.
  unfold gets at 1. cbv beta iota. rewrite Hdocs. unfold the_array, ret at 1.
  cbv beta iota.
  rewrite delete_loop_spec by lia.
  cbn [firstn skipn app Nat.add].
  unfold store_collection, mark_changed, updateActivity_on_disk, updateActivity,
    modify, gets, bind, ret.
  cbn [jsm disk now drawn storageMode _collections _indexes set_collections
       set_changedCollections set_lastActivity].
  destruct (0 <? length (filter (matches rt (VObj query)) docs))%nat;
    cbn [jsm disk now drawn storageMode _collections _indexes set_collections
         set_changedCollections set_lastActivity];
    destruct (storageMode (jsm w) =? "disk")%string;
    eexists; repeat split; reflexivity.
Qed.

(** C6.  For every collection and filter, one [deleteOne] call (by an
    absent or permitted user) removes every document the filter matches,
    not only the first: the collection becomes the sub-list of the
    documents the filter rejects, in their original order; the call
    returns the number of removed documents; other collections are
    untouched. *)
Theorem deleteOne_removes_every_match (rt : runtime)
  (dbName collectionName : string) (query : obj) (user : value) (w : world)
  (docs : list obj) :
  absent_or_permitted user (fullName dbName collectionName) "write" = Ok true ->
  lookup (fullName dbName collectionName) (_collections (jsm w)) = Some docs ->
  exists w',
    deleteOne rt dbName collectionName (VObj query) user w
      = (Ok (VNum (Z.of_nat (length (filter (matches rt (VObj query)) docs)))), w')
    /\ lookup (fullName dbName collectionName) (_collections (jsm w'))
       = Some (filter (fun d => negb (matches rt (VObj query) d)) docs)
    /\ length (filter (fun d => negb (matches rt (VObj query) d)) docs)
       = length docs - length (filter (matches rt (VObj query)) docs)
    /\ forall other, other <> fullName dbName collectionName ->
         lookup other (_collections (jsm w')) = lookup other (_collections (jsm w)).
Proof.
  intros Hguard Hdocs.
  destruct (deleteOne_effect rt dbName collectionName query user w docs
              Hguard Hdocs) as (w' & Hrun & Hc & _).
  exists w'. split; [exact Hrun|]. rewrite Hc.
  split; [apply lookup_set_prop_same|].
  split; [apply length_filter_negb|].
  intros other Hother. now apply lookup_set_prop_other.
Qed.

Lemma deleteOne_removes_every_match_witness :
  exists w',
    deleteOne sample_rt "test" "one" (VObj [("name", VStr "Beta")]) VUndef
      (sample_world "memory" three_docs) = (Ok (VNum 2), w')
    /\ lookup "test.one" (_collections (jsm w')) = Some [doc_named "Alpha" "id2"].
Proof.
  destruct (deleteOne_removes_every_match sample_rt "test" "one"
              [("name", VStr "Beta")] VUndef (sample_world "memory" three_docs)
              three_docs eq_refl eq_refl) as (w' & H1 & H2 & _).
  exists w'. split; [exact H1 | exact H2].
Defined.

(* ----------------------------------------------------------------- *)
(** *** updateOne *)






Lemma first_match_none (rt : runtime) (query : obj) (docs : list obj) (i : nat) :
  Forall (fun x => matches rt (VObj query) x = false) docs ->
  first_match rt (VObj query) docs i = Ok None.
Proof.
  intros H. revert i. induction H as [|x docs Hx H IH]; intros i; simpl; auto.
  rewrite _matchQuery_total, Hx. simpl. apply IH.
Qed.





(** C4 (amended).  For every filter and update, [updateOne] (by a
    permitted user) with [options.upsert === true] and no document matching
    the filter appends exactly one new document.  Its fields other than
    [_id] are all the fields of the filter, operator clauses included and
    copied as they are, overlaid by the fields of the update's [$set] (by
    the update's own fields when it has no truthy [$set]).  Its [_id] is
    the identifier the generator hands out at the call, whatever [_id] the
    filter or the update carry, and the result reports the upsert with that
    identifier. *)
Theorem updateOne_upsert_inserts_one (rt : runtime)
  (dbName collectionName : string) (query update : obj) (options user : value)
  (w : world) (docs : list obj) :
  truthy user = true ->
  checkPermission user (fullName dbName collectionName) "write" = Ok true ->
  lookup (fullName dbName collectionName) (_collections (jsm w)) = Some docs ->
  Forall (fun x => matches rt (VObj query) x = false) docs ->
  strict_eq (get_prop_opt options "upsert") (VBool true) = true ->
  exists id w1 newDoc w',
    _generateUniqueId rt w = (Ok id, w1)
    /\ updateOne rt dbName collectionName (VObj query) (VObj update) options user w
       = (Ok (VObj [("matchedCount", VNum 0); ("modifiedCount", VNum 1);
                    ("upsertedId", VStr id); ("acknowledged", VBool true);
                    ("upserted", VBool true)]), w')
    /\ lookup (fullName dbName collectionName) (_collections (jsm w'))
       = Some (docs ++ [newDoc])
    /\ (forall other, other <> fullName dbName collectionName ->
          lookup other (_collections (jsm w')) = lookup other (_collections (jsm w)))
    /\ get newDoc "_id" = VStr id
    /\ forall k, k <> "_id" ->
         lookup k newDoc = lookup k (assign query (update_fields update)).
Proof.
  intros Huser Hperm Hdocs Hnone Hupsert.
  unfold updateOne, bind, lift. rewrite Huser, Hperm. cbn [negb rbind].
  unfold gets at 1. cbv beta iota. rewrite Hdocs.
  rewrite (first_match_none rt query docs 0 Hnone). rewrite Hupsert.
  unfold upsert_data. cbn [get_prop rbind own_props].
  unfold _generateUniqueId at 2.
  unfold store_collection, mark_changed, updateActivity_on_disk, updateActivity,
    modify, gets, bind, ret. simpl.
  destruct (storageMode (jsm w) =? "disk")%string; simpl;
    do 4 eexists; (split; [reflexivity|]); (split; [reflexivity|]); simpl;
    (split; [apply lookup_set_prop_same|]);
    (split; [intros other Hother; now apply lookup_set_prop_other|]);
    (split; [unfold get; now rewrite lookup_set_prop_same|]).
  all: intros k Hk; rewrite lookup_set_prop_other by assumption.
  all: rewrite lookup_delete_prop_other by assumption.
  all: unfold update_fields; now destruct (truthy (get update "$set")).
Qed.

(** C4, the claim as stated fails: upserting with the filter
    [{age: {$gt: 100}}], which has no literal field, into an empty
    collection stores a document whose [age] is the operator object. *)
Lemma upsert_copies_operator_clauses :
  ~ spec_upsert_from_literal_fields sample_rt.
Proof.
  intros H.
  destruct (H "test" "one" range_query set_name_update upsert_option admin_user
              (sample_world "memory" []) [] eq_refl eq_refl eq_refl
              (Forall_nil _) eq_refl) as (newDoc & Hdoc & Hfields).
  vm_compute in Hdoc. injection Hdoc as <-.
  specialize (Hfields "age"). vm_compute in Hfields.
  assert (Hage : "age" <> "_id") by discriminate.
  specialize (Hfields Hage). discriminate Hfields.
Qed.

Lemma updateOne_upsert_inserts_one_witness :
  exists id w1 newDoc w',
    _generateUniqueId sample_rt (sample_world "memory" []) = (Ok id, w1)
    /\ lookup "test.one" (_collections (jsm w')) = Some [newDoc]
    /\ get newDoc "_id" = VStr id
    /\ lookup "age" newDoc = Some (VObj [("$gt", VNum 100)])
    /\ lookup "name" newDoc = Some (VStr "Zeta").
Proof.
  destruct (updateOne_upsert_inserts_one sample_rt "test" "one" range_query
              set_name_update upsert_option admin_user
              (sample_world "memory" []) [] eq_refl eq_refl eq_refl
              (Forall_nil _) eq_refl)
    as (id & w1 & newDoc & w' & Hid & _ & Hdoc & _ & Hnew & Hfields).
  exists id, w1, newDoc, w'.
  split; [exact Hid|]. split; [exact Hdoc|]. split; [exact Hnew|].
  split; rewrite Hfields by discriminate; reflexivity.
Defined.

(* ----------------------------------------------------------------- *)
(** *** find and the index *)

(** [find] by an absent user on an existing collection. *)
Lemma find_absent_user (rt : runtime) (dbName collectionName : string)
  (query : obj) (s : JSM) (docs : list obj) :
  lookup (fullName dbName collectionName) (_collections s) = Some docs ->
  find rt dbName collectionName (VObj query) VUndef s
  = let* indexed :=
      find_by_index s (fullName dbName collectionName) docs (VObj query) in
    match indexed with
    | Some results => Ok results
    | None => scan rt (VObj query) docs
    end.
Proof.
  intros Hdocs. unfold find. cbn [absent_or_permitted truthy negb rbind].
  now rewrite Hdocs.
Qed.

(** C9.  Starting from a fresh store, insert [{name: "Alpha"}] and
    [{name: "Beta"}] and create an index on [name].  Then
    [find({name: "Alpha"})] is answered by the index branch and returns
    exactly the Alpha document.  After [deleteOne({name: "Beta"})], which
    removes one document and leaves the index as it was, the indexed
    [find({name: "Beta"})] does not throw: the stale entry points past
    the end of the array and the call returns the one-element list
    [[undefined]]. *)
Theorem stale_index_find_does_not_throw (rt : runtime) (mode : option string)
  (timeout : option Z) (d : dir) (t : Z) (n : nat) :
  let w := alpha_beta_indexed rt (fresh_world mode timeout d t n) in
  exists alpha beta,
    lookup "test.one" (_collections (jsm w)) = Some [alpha; beta]
    /\ get alpha "name" = VStr "Alpha"
    /\ get beta "name" = VStr "Beta"
    /\ find_by_index (jsm w) "test.one" [alpha; beta] alpha_query
       = Ok (Some [VObj alpha])
    /\ find rt "test" "one" alpha_query VUndef (jsm w) = Ok [VObj alpha]
    /\ fst (deleteOne rt "test" "one" beta_query VUndef w) = Ok (VNum 1)
    /\ let w' := snd (deleteOne rt "test" "one" beta_query VUndef w) in
       lookup "test.one" (_collections (jsm w')) = Some [alpha]
       /\ find_by_index (jsm w') "test.one" [alpha] beta_query
          = Ok (Some [VUndef])
       /\ find rt "test" "one" beta_query VUndef (jsm w') = Ok [VUndef].
Proof.
  intros w. subst w. unfold alpha_beta_indexed.
  set (w1 := snd (collection "test" "one" (fresh_world mode timeout d t n))).
  assert (Hc1 : _collections (jsm w1) = [("test.one", [])]) by reflexivity.
  assert (Hi1 : _indexes (jsm w1) = []) by reflexivity.
  clearbody w1.
  (* insert Alpha *)
  destruct (insertOne_effect rt "test" "one" alpha_query VUndef w1 []
              eq_refl) as (w2 & Hrun2 & Hc2 & Hi2 & _).
  { now rewrite Hc1. }
  rewrite Hrun2. cbn [snd].
  remember (objectId rt (now w1) (drawn w1)) as id1 eqn:Eid1. clear Eid1 Hrun2.
  rewrite Hc1 in Hc2. rewrite Hi1 in Hi2. cbn in Hc2.
  (* insert Beta *)
  destruct (insertOne_effect rt "test" "one" beta_query VUndef w2
              [[("name", VStr "Alpha"); ("_id", VStr id1)]] eq_refl)
    as (w3 & Hrun3 & Hc3 & Hi3 & _).
  { now rewrite Hc2. }
  rewrite Hrun3. cbn [snd].
  remember (objectId rt (now w2) (drawn w2)) as id2 eqn:Eid2. clear Eid2 Hrun3.
  rewrite Hc2 in Hc3. rewrite Hi2 in Hi3. cbn in Hc3.
  (* index name *)
  destruct (collection_createIndex_effect "test" "one" "name" VUndef w3
              [[("name", VStr "Alpha"); ("_id", VStr id1)];
               [("name", VStr "Beta"); ("_id", VStr id2)]] eq_refl)
    as (w4 & fields & Hrun4 & Hc4 & Hi4 & Hname & _).
  { now rewrite Hc3. }
  rewrite Hrun4. cbn [snd]. clear Hrun4.
  rewrite Hc3 in Hc4. cbn in Hname. change (fullName "test" "one") with "test.one" in Hi4.
  exists [("name", VStr "Alpha"); ("_id", VStr id1)],
         [("name", VStr "Beta"); ("_id", VStr id2)].
  assert (Hfind4 : find_by_index (jsm w4) "test.one"
            [[("name", VStr "Alpha"); ("_id", VStr id1)];
             [("name", VStr "Beta"); ("_id", VStr id2)]] alpha_query
          = Ok (Some [VObj [("name", VStr "Alpha"); ("_id", VStr id1)]])).
  { unfold find_by_index, alpha_query. cbn [object_entries own_props rbind].
    rewrite Hi4, Hname. reflexivity. }
  split; [now rewrite Hc4|].
  split; [reflexivity|].
  split; [reflexivity|].
  split; [exact Hfind4|].
  split.
  { unfold alpha_query in *.
    rewrite (find_absent_user rt "test" "one" _ (jsm w4)
               [[("name", VStr "Alpha"); ("_id", VStr id1)];
                [("name", VStr "Beta"); ("_id", VStr id2)]])
      by now rewrite Hc4.
    change (fullName "test" "one") with "test.one".
    now rewrite Hfind4. }
  (* delete Beta *)
  destruct (deleteOne_effect rt "test" "one" [("name", VStr "Beta")] VUndef w4
              [[("name", VStr "Alpha"); ("_id", VStr id1)];
               [("name", VStr "Beta"); ("_id", VStr id2)]] eq_refl)
    as (w5 & Hrun5 & Hc5 & Hi5).
  { now rewrite Hc4. }
  change (VObj [("name", VStr "Beta")]) with beta_query in Hrun5.
  rewrite Hrun5. cbn [fst snd].
  split; [reflexivity|].
  rewrite Hc4 in Hc5. cbn in Hc5.
  assert (Hfind5 : find_by_index (jsm w5) "test.one"
            [[("name", VStr "Alpha"); ("_id", VStr id1)]] beta_query
          = Ok (Some [VUndef])).
  { unfold find_by_index, beta_query. cbn [object_entries own_props rbind].
    rewrite Hi5, Hi4, Hname. reflexivity. }
  split; [now rewrite Hc5|].
  split; [exact Hfind5|].
  unfold beta_query in *.
  rewrite (find_absent_user rt "test" "one" _ (jsm w5)
             [[("name", VStr "Alpha"); ("_id", VStr id1)]])
    by now rewrite Hc5.
  change (fullName "test" "one") with "test.one".
  now rewrite Hfind5.
Qed.

(* ----------------------------------------------------------------- *)
(** *** Users and permissions *)

(** [db(dbName).collection(collectionName)] leaves the collection in
    place, creating it empty when it was missing. *)
Lemma collection_effect (dbName collectionName : string) (w : world) :
  exists w' docs,
    collection dbName collectionName w = (Ok tt, w')
    /\ lookup (fullName dbName collectionName) (_collections (jsm w')) = Some docs
    /\ disk w' = disk w /\ now w' = now w /\ drawn w' = drawn w.
Proof.
  unfold collection, modify.
  cbn [_collections set_databases].
  destruct (lookup (fullName dbName collectionName) (_collections (jsm w)))
    as [docs|] eqn:E.
  - exists (mkWorld (set_databases (set_add dbName (_databases (jsm w))) (jsm w))
              (disk w) (now w) (drawn w)), docs.
    repeat split. exact E.
  - eexists. exists []. split; [reflexivity|].
    split; [apply lookup_set_prop_same|]. repeat split.
Qed.

(** A user holding only the default grant reads everything and writes
    nothing. *)
Lemma default_roles_read_only (fields : obj) (resource : string) :
  get fields "roles" = default_roles ->
  hasPermission (VObj fields) resource "read" = Ok true
  /\ hasPermission (VObj fields) resource "write" = Ok false.
Proof.
  intros Hroles. unfold hasPermission.
  cbn [truthy negb get_prop rbind]. rewrite Hroles.
  unfold default_roles. cbn. rewrite !orb_true_r. cbn. split; reflexivity.
Qed.

(** C10.  For every username and password, [registerUser] called without
    roles or with an empty list of roles, for a username that [find] does
    not already report, stores a new user whose roles are the single grant
    [{resource: "*", permissions: ["read"]}]: [hasPermission] grants that
    user [read] on every resource and [write] on none. *)
Theorem registerUser_default_role (rt : runtime) (username password : string)
  (roles : value) (w : world) :
  roles = VUndef \/ roles = VArr [] ->
  find rt "auth" "users" (VObj [("username", VStr username)]) VUndef
    (jsm (snd (collection "auth" "users" w))) = Ok [] ->
  exists id users w',
    let newUser :=
      [("username", VStr username); ("password", VStr (bcrypt_hash rt password));
       ("roles", VArr [VObj [("resource", VStr "*");
                             ("permissions", VArr [VStr "read"])]]);
       ("_id", VStr id)] in
    registerUser rt username password roles w = (Ok (VObj newUser), w')
    /\ lookup "auth.users" (_collections (jsm w')) = Some (users ++ [newUser])
    /\ (forall resource, hasPermission (VObj newUser) resource "read" = Ok true)
    /\ (forall resource, hasPermission (VObj newUser) resource "write" = Ok false).
Proof.
  intros Hroles Hfind.
  destruct (collection_effect "auth" "users" w)
    as (w1 & docs1 & Hrun1 & Hc1 & _).
  rewrite Hrun1 in Hfind. cbn [snd] in Hfind.
  destruct (collection_effect "auth" "users" w1)
    as (w2 & users & Hrun2 & Hc2 & _ & Hnow2 & Hdrawn2).
  destruct (insertOne_effect rt "auth" "users"
              (VObj [("username", VStr username);
                     ("password", VStr (bcrypt_hash rt password));
                     ("roles", default_roles)]) VUndef w2 users eq_refl Hc2)
    as (w3 & Hrun3 & Hc3 & _).
  exists (objectId rt (now w2) (drawn w2)), users, w3.
  cbv zeta. split; [|split; [|split]].
  - unfold registerUser, bind. rewrite Hrun1, Hfind.
    cbn [length Nat.ltb Nat.leb].
    assert (Hdefault :
      (if negb (truthy match roles with VUndef => VArr [] | _ => roles end)
          || strict_eq
               (get_prop_opt match roles with VUndef => VArr [] | _ => roles end
                  "length") (VNum 0)
       then default_roles
       else match roles with VUndef => VArr [] | _ => roles end) = default_roles)
      by (destruct Hroles; subst roles; reflexivity).
    rewrite Hdefault, Hrun2. exact Hrun3.
  - rewrite Hc3. apply lookup_set_prop_same.
  - intros resource. now apply default_roles_read_only.
  - intros resource. now apply default_roles_read_only.
Qed.

Lemma registerUser_default_role_witness :
  exists id users w',
    registerUser sample_rt "reader" "pass123" VUndef (sample_world "memory" [])
    = (Ok (VObj [("username", VStr "reader");
                 ("password", VStr (bcrypt_hash sample_rt "pass123"));
                 ("roles", VArr [VObj [("resource", VStr "*");
                                       ("permissions", VArr [VStr "read"])]]);
                 ("_id", VStr id)]), w')
    /\ lookup "auth.users" (_collections (jsm w'))
       = Some (users
               ++ [[("username", VStr "reader");
                    ("password", VStr (bcrypt_hash sample_rt "pass123"));
                    ("roles", VArr [VObj [("resource", VStr "*");
                                          ("permissions", VArr [VStr "read"])]]);
                    ("_id", VStr id)]]).
Proof.
  destruct (registerUser_default_role sample_rt "reader" "pass123" VUndef
              (sample_world "memory" []) (or_introl eq_refl) eq_refl)
    as (id & users & w' & H1 & H2 & _).
  exists id, users, w'. split; [exact H1 | exact H2].
Defined.

(** C3, where the code departs from the claim.  [updateOne] called without
    a user does not proceed: whatever the filter, the update and the
    options, it returns the permission-denied report and leaves the world
    as it was.  The five other collection methods let an absent user
    through (their guard is [absent_or_permitted], see
    [absent_user_passes]). *)
Theorem updateOne_denies_absent_user (rt : runtime)
  (dbName collectionName : string) (filter update options : value) (w : world) :
  updateOne rt dbName collectionName filter update options VUndef w
  = (Ok (VObj [("matchedCount", VNum 0); ("modifiedCount", VNum 0);
               ("acknowledged", VBool false);
               ("error", VStr "Permission denied")]), w).
Proof. reflexivity. Qed.

(* ----------------------------------------------------------------- *)
(** *** The dump cycle *)







(* ----------------------------------------------------------------- *)
(** *** Memory mode *)

Lemma _persistCollection_memory_mode (rt : runtime)
  (dbName collectionName : string) (data : option (list obj)) (w : world) :
  storageMode (jsm w) <> "disk" ->
  _persistCollection rt dbName collectionName data w = (Ok tt, w).
Proof.
  intros Hmode. unfold _persistCollection.
  apply String.eqb_neq in Hmode. now rewrite Hmode.
Qed.

(** In memory mode a dump writes nothing. *)
Lemma dump_each_memory_mode (rt : runtime) (names : list string) (w : world) :
  storageMode (jsm w) <> "disk" ->
  dump_each rt names w = (Ok tt, w).
Proof.
  intros Hmode. induction names as [|x names IH]; simpl; auto.
  unfold bind, gets. now rewrite _persistCollection_memory_mode.
Qed.

(** C2, where the code departs from the claim.  [initialize] of a store
    configured with [storageMode: 'memory'] reads the collection files
    found under the storage path: started on a directory holding
    [test/one.json], it ends with collection [test.one] loaded.  (Writes
    are indeed suppressed in memory mode, see
    [_persistCollection_memory_mode].) *)
Theorem initialize_loads_in_memory_mode (rt : runtime) (t : Z) (n : nat) :
  exists w',
    initialize rt (fresh_world (Some "memory") None persisted_disk t n)
      = (Ok tt, w')
    /\ storageMode (jsm w') = "memory"
    /\ lookup "test.one" (_collections (jsm w')) = Some [doc_named "Alpha" "a1"].
Proof.
  eexists. split; [reflexivity|]. split; reflexivity.
Qed.

(* ----------------------------------------------------------------- *)
(** *** Names *)















(* ----------------------------------------------------------------- *)
(** *** Directories *)



Lemma lookup_unique {A : Type} (k : string) (v : A) (o : list (string * A)) :
  NoDup (map fst o) -> In (k, v) o -> lookup k o = Some v.
Proof.
  induction o as [|[k' v'] o IH]; simpl; intros Hnd Hin; try contradiction.
  inversion Hnd as [|? ? Hnotin Hnd']; subst.
  destruct Hin as [Heq | Hin].
  - injection Heq as -> ->. now rewrite String.eqb_refl.
  - destruct (k =? k')%string eqn:E.
    + apply String.eqb_eq in E. subst k'. exfalso. apply Hnotin.
      now apply (in_map fst) in Hin.
    + now apply IH.
Qed.




(* ----------------------------------------------------------------- *)
(** *** Writing a collection *)







(* ----------------------------------------------------------------- *)
(** *** Loading *)

Lemma append_inj_r (a x y : string) :
  (a ++ x)%string = (a ++ y)%string -> x = y.
Proof. induction a as [|c a IH]; simpl; intros H; auto. injection H. auto. Qed.





(* ----------------------------------------------------------------- *)
(** *** JSON *)




(* ----------------------------------------------------------------- *)
(** *** Dump and reload *)


(** C8, where the code departs from the claim.  A document inserted into
    collection [user.events] of database [app] is dumped, by
    [_dumpChangedCollections], to [app/user.json]: the name is cut at its
    second dot.  A fresh store loading that disk has a collection
    [app.user] and no collection [app.user.events]. *)
Theorem dotted_collection_lost_on_restart :
  lookup "app.user.events" (_collections (jsm dotted_world))
    = Some [[("kind", VStr "login");
             ("_id", VStr "00000000000000000000000000000000")]]
  /\ exists dumped loaded,
       _dumpChangedCollections sample_rt dotted_world = (Ok tt, dumped)
       /\ disk dumped
          = [("app",
              FDir [("user.json",
                     FFile (Some [[("kind", VStr "login");
                                   ("_id", VStr "00000000000000000000000000000000")]]))])]
       /\ _loadPersistedData (restart dumped) = (Ok tt, loaded)
       /\ lookup "app.user.events" (_collections (jsm loaded)) = None
       /\ map fst (_collections (jsm loaded)) = ["app.user"].
Proof.
  split; [reflexivity|].
  do 2 eexists. split; [reflexivity|]. split; [reflexivity|].
  split; [reflexivity|]. split; reflexivity.
Qed.

(* ================================================================= *)
(** ** Further properties *)

(* ----------------------------------------------------------------- *)
(** *** The permission enforcer on well-formed grants *)

Lemma some_of_existsb (callback : value -> result bool) (f : value -> bool)
  (items : list value) :
  Forall (fun x => callback x = Ok (f x)) items ->
  some_of callback items = Ok (existsb f items).
Proof.
  induction 1 as [|x items Hx _ IH]; simpl; auto.
  rewrite Hx. simpl. destruct (f x); auto.
Qed.

Lemma well_formed_roles_Forall (roles : list value) (P : value -> Prop) :
  forallb well_formed_grant roles = true ->
  (forall role, well_formed_grant role = true -> P role) ->
  Forall P roles.
Proof.
  intros Hwf HP. induction roles as [|role roles IH]; constructor;
    simpl in Hwf; apply andb_true_iff in Hwf; destruct Hwf; auto.
Qed.

(** The first pass of [hasPermission], looking for an admin wildcard. *)
Lemma admin_pass (roles : list value) :
  forallb well_formed_grant roles = true ->
  some_of (fun role =>
             let* res := get_prop role "resource" in
             if strict_eq res (VStr "*") then
               let* permissions := get_prop role "permissions" in
               js_includes permissions (VStr "admin")
             else Ok false) roles
  = Ok (existsb admin_wildcard roles).
Proof.
  intros Hwf. apply some_of_existsb.
  apply (well_formed_roles_Forall roles _ Hwf).
  intros [| | | | | |grant] Hg; try discriminate Hg.
  unfold admin_wildcard, grant_scope, grant_lists. simpl in *.
  destruct (strict_eq (get grant "resource") (VStr "*")); simpl; auto.
  destruct (get grant "permissions"); try discriminate Hg. reflexivity.
Qed.

(** The second pass, looking for a grant that covers the request. *)
Lemma cover_pass (roles : list value) (resource permission : string) :
  forallb well_formed_grant roles = true ->
  some_of (fun role =>
             let* res := get_prop role "resource" in
             if strict_eq res (VStr resource)
                || strict_eq res (VStr (segment 0 (split_dot resource)))
                || strict_eq res (VStr "*")
             then
               let* permissions := get_prop role "permissions" in
               js_includes permissions (VStr permission)
             else Ok false) roles
  = Ok (existsb (grant_covers resource permission) roles).
Proof.
  intros Hwf. apply some_of_existsb.
  apply (well_formed_roles_Forall roles _ Hwf).
  intros [| | | | | |grant] Hg; try discriminate Hg.
  unfold grant_covers, grant_scope, grant_lists. simpl in *.
  destruct (strict_eq (get grant "resource") (VStr resource)
            || strict_eq (get grant "resource")
                 (VStr (segment 0 (split_dot resource)))
            || strict_eq (get grant "resource") (VStr "*")); simpl; auto.
  destruct (get grant "permissions"); try discriminate Hg. reflexivity.
Qed.

Lemma hasPermission_roles (fields : obj) (roles : list value)
  (resource permission : string) :
  get fields "roles" = VArr roles ->
  hasPermission (VObj fields) resource permission
  = let* admin :=
      some_of (fun role =>
                 let* res := get_prop role "resource" in
                 if strict_eq res (VStr "*") then
                   let* permissions := get_prop role "permissions" in
                   js_includes permissions (VStr "admin")
                 else Ok false) roles in
    if admin then Ok true
    else
      some_of (fun role =>
                 let* res := get_prop role "resource" in
                 if strict_eq res (VStr resource)
                    || strict_eq res (VStr (segment 0 (split_dot resource)))
                    || strict_eq res (VStr "*")
                 then
                   let* permissions := get_prop role "permissions" in
                   js_includes permissions (VStr permission)
                 else Ok false) roles.
Proof.
  intros Hroles. unfold hasPermission.
  cbn [truthy negb get_prop rbind]. rewrite Hroles. reflexivity.
Qed.

(** X1.  On a user whose [roles] is an array of well-formed grants,
    [hasPermission] never throws, and it answers [true] exactly when some
    grant is an admin wildcard, or some grant lists the permission and is
    scoped to the resource, to its database prefix, or to ["*"]. *)
Theorem hasPermission_decides (fields : obj) (roles : list value)
  (resource permission : string) :
  get fields "roles" = VArr roles ->
  forallb well_formed_grant roles = true ->
  hasPermission (VObj fields) resource permission
  = Ok (existsb admin_wildcard roles
        || existsb (grant_covers resource permission) roles).
Proof.
  intros Hroles Hwf.
  rewrite (hasPermission_roles fields roles resource permission Hroles).
  rewrite (admin_pass roles Hwf). simpl.
  destruct (existsb admin_wildcard roles); simpl; auto.
  apply cover_pass, Hwf.
Qed.

Lemma hasPermission_decides_witness :
  hasPermission (VObj (user_with [grant "test.one" ["read"]])) "test.one" "read"
    = Ok true
  /\ hasPermission (VObj (user_with [grant "test.one" ["read"]])) "test.one" "write"
    = Ok false.
Proof.
  split.
  - exact (hasPermission_decides (user_with [grant "test.one" ["read"]])
             [grant "test.one" ["read"]] "test.one" "read" eq_refl eq_refl).
  - exact (hasPermission_decides (user_with [grant "test.one" ["read"]])
             [grant "test.one" ["read"]] "test.one" "write" eq_refl eq_refl).
Defined.

(** X2.  One admin wildcard among well-formed grants is enough for every
    permission on every resource, whatever the names asked for, also
    names no grant mentions. *)
Theorem admin_wildcard_grants_everything (fields : obj) (roles : list value)
  (resource permission : string) :
  get fields "roles" = VArr roles ->
  forallb well_formed_grant roles = true ->
  existsb admin_wildcard roles = true ->
  hasPermission (VObj fields) resource permission = Ok true
  /\ checkPermission (VObj fields) resource permission = Ok true
  /\ absent_or_permitted (VObj fields) resource permission = Ok true.
Proof.
  intros Hroles Hwf Hadmin.
  assert (H : hasPermission (VObj fields) resource permission = Ok true).
  { rewrite (hasPermission_roles fields roles resource permission Hroles).
    rewrite (admin_pass roles Hwf), Hadmin. reflexivity. }
  unfold absent_or_permitted, checkPermission. rewrite H. auto.
Qed.

Lemma admin_wildcard_grants_everything_witness :
  hasPermission admin_user "unheard.of" "drop" = Ok true
  /\ checkPermission admin_user "unheard.of" "drop" = Ok true
  /\ absent_or_permitted admin_user "unheard.of" "drop" = Ok true.
Proof.
  exact (admin_wildcard_grants_everything
           [("username", VStr "admin");
            ("roles", VArr [grant "*" ["read"; "write"; "admin"]])]
           [grant "*" ["read"; "write"; "admin"]] "unheard.of" "drop"
           eq_refl eq_refl eq_refl).
Defined.




(** X4.  A grant scoped to one collection does not leak: a user whose
    only grant is scoped to a name that is neither the resource asked for,
    nor its database prefix, nor ["*"], is refused every permission on
    that resource, also the permissions the grant lists. *)
Theorem scoped_grant_does_not_leak (fields : obj) (role : value)
  (scope resource permission : string) :
  get fields "roles" = VArr [role] ->
  well_formed_grant role = true ->
  grant_scope role = VStr scope ->
  scope <> resource ->
  scope <> segment 0 (split_dot resource) ->
  scope <> "*" ->
  hasPermission (VObj fields) resource permission = Ok false.
Proof.
  intros Hroles Hwf Hscope Hr Hp Hs.
  assert (Hwfs : forallb well_formed_grant [role] = true)
    by (simpl; now rewrite Hwf).
  rewrite (hasPermission_roles fields [role] resource permission Hroles).
  rewrite (admin_pass [role] Hwfs).
  rewrite (cover_pass [role] resource permission Hwfs).
  simpl. unfold admin_wildcard, grant_covers. rewrite Hscope. simpl.
  apply String.eqb_neq in Hr, Hp, Hs. now rewrite Hr, Hp, Hs.
Qed.

Lemma scoped_grant_does_not_leak_witness :
  hasPermission (VObj (user_with [grant "test.one" ["read"; "write"]]))
    "test.two" "read" = Ok false.
Proof.
  apply (scoped_grant_does_not_leak
           (user_with [grant "test.one" ["read"; "write"]])
           (grant "test.one" ["read"; "write"])
           "test.one" "test.two" "read" eq_refl eq_refl eq_refl);
    discriminate.
Defined.

(* ----------------------------------------------------------------- *)
(** *** How filters compose *)

Lemma match_operators_app (rt : runtime) (doc : obj) (key : string)
  (ops1 ops2 : obj) :
  match_operators rt (VObj doc) key (ops1 ++ ops2)
  = let* pass := match_operators rt (VObj doc) key ops1 in
    if pass then match_operators rt (VObj doc) key ops2 else Ok false.
Proof.
  induction ops1 as [|[operator compValue] ops1 IH]; simpl; auto.
  destruct (match_operator_total rt doc key operator compValue) as [b Hb].
  rewrite Hb. simpl. destruct b; auto.
Qed.

Lemma match_entries_app (rt : runtime) (doc : obj) (q1 q2 : obj) :
  match_entries rt (VObj doc) (q1 ++ q2)
  = let* pass := match_entries rt (VObj doc) q1 in
    if pass then match_entries rt (VObj doc) q2 else Ok false.
Proof.
  induction q1 as [|[key v] q1 IH]; simpl; auto.
  destruct (is_object v).
  - destruct (match_operators_total rt doc key (own_props v)) as [b Hb].
    rewrite Hb. simpl. destruct b; auto.
  - destruct (negb (strict_eq (get doc key) v)); auto.
Qed.

(** X5.  The fields of a filter are AND-ed, and so are the operators of
    one clause: a document passes the filter [q1 ++ q2] exactly when it
    passes [q1] and passes [q2], and it passes a clause with operators
    [ops1 ++ ops2] exactly when it passes the clause with [ops1] and the
    clause with [ops2]. *)
Theorem filters_are_conjunctions (rt : runtime) (doc q1 q2 : obj)
  (key : string) (ops1 ops2 : obj) :
  _matchQuery rt (VObj doc) (VObj (q1 ++ q2))
  = Ok (matches rt (VObj q1) doc && matches rt (VObj q2) doc)
  /\ _matchQuery rt (VObj doc) (VObj [(key, VObj (ops1 ++ ops2))])
     = Ok (matches rt (VObj [(key, VObj ops1)]) doc
           && matches rt (VObj [(key, VObj ops2)]) doc).
Proof.
  split.
  - unfold matches, _matchQuery. simpl. rewrite match_entries_app.
    destruct (match_entries_total rt doc q1) as [b1 H1].
    destruct (match_entries_total rt doc q2) as [b2 H2].
    rewrite H1, H2. simpl. now destruct b1.
  - unfold matches, _matchQuery. simpl. rewrite match_operators_app.
    destruct (match_operators_total rt doc key ops1) as [b1 H1].
    destruct (match_operators_total rt doc key ops2) as [b2 H2].
    rewrite H1, H2. simpl. destruct b1, b2; reflexivity.
Qed.

Lemma scan_everything (rt : runtime) (docs : list obj) :
  scan rt (VObj []) docs = Ok (map VObj docs).
Proof. induction docs as [|doc docs IH]; simpl; auto. now rewrite IH. Qed.

(** X6.  [find({})], and [find()] with no query at all, by a user who may
    read, return the whole collection in collection order, whether or not
    the collection has indexes. *)
Theorem find_empty_query_returns_all (rt : runtime)
  (dbName collectionName : string) (user : value) (s : JSM) (docs : list obj) :
  absent_or_permitted user (fullName dbName collectionName) "read" = Ok true ->
  lookup (fullName dbName collectionName) (_collections s) = Some docs ->
  find rt dbName collectionName (VObj []) user s = Ok (map VObj docs)
  /\ find rt dbName collectionName VUndef user s = Ok (map VObj docs).
Proof.
  intros Hguard Hdocs. unfold find. rewrite Hguard, Hdocs. simpl.
  rewrite scan_everything. auto.
Qed.

Lemma find_empty_query_returns_all_witness :
  find sample_rt "test" "one" (VObj []) admin_user (sample_store "memory" three_docs)
    = Ok (map VObj three_docs)
  /\ find sample_rt "test" "one" VUndef admin_user (sample_store "memory" three_docs)
    = Ok (map VObj three_docs).
Proof.
  exact (find_empty_query_returns_all sample_rt "test" "one" admin_user
           (sample_store "memory" three_docs) three_docs eq_refl eq_refl).
Defined.

(** X7.  Operators that come in pairs.  On every document, [$ne] answers
    the opposite of [$eq]; with an array to compare with, [$nin] answers
    the opposite of [$in]; and [$eq] with a value that is not an object
    answers as the literal clause does. *)
Theorem operator_pairs (rt : runtime) (doc : obj) (key : string)
  (v items : value) :
  matches rt (VObj [(key, VObj [("$ne", v)])]) doc
  = negb (matches rt (VObj [(key, VObj [("$eq", v)])]) doc)
  /\ (is_array items = true ->
      matches rt (VObj [(key, VObj [("$nin", items)])]) doc
      = negb (matches rt (VObj [(key, VObj [("$in", items)])]) doc))
  /\ (is_object v = false ->
      matches rt (VObj [(key, VObj [("$eq", v)])]) doc
      = matches rt (VObj [(key, v)]) doc).
Proof.
  unfold matches, _matchQuery, match_operator. simpl. split; [|split].
  - now destruct (strict_eq (get doc key) v).
  - intros Harr. destruct items; try discriminate Harr. simpl.
    now destruct (existsb (strict_eq (get doc key)) items).
  - intros Hobj. destruct v; try discriminate Hobj; simpl;
      now destruct (strict_eq (get doc key) _).
Qed.

Lemma operator_pairs_witness :
  matches sample_rt (VObj [("name", VObj [("$nin", VArr [VStr "Beta"])])])
    (doc_named "Alpha" "id2") = true
  /\ matches sample_rt (VObj [("name", VObj [("$eq", VStr "Alpha")])])
       (doc_named "Alpha" "id2") = true.
Proof.
  destruct (operator_pairs sample_rt (doc_named "Alpha" "id2") "name"
              (VStr "Alpha") (VArr [VStr "Beta"])) as (_ & Hnin & Heq).
  split.
  - rewrite (Hnin eq_refl). reflexivity.
  - rewrite (Heq eq_refl). reflexivity.
Defined.

Lemma strict_eq_undefined (v : value) :
  v <> VUndef -> strict_eq VUndef v = false.
Proof. destruct v; auto. intros H. now contradiction H. Qed.



(* ----------------------------------------------------------------- *)
(** *** What an index holds and what [find] reads from it *)








(** The scan keeps the documents the matcher accepts. *)
Lemma scan_filter (rt : runtime) (query : obj) (docs : list obj) :
  scan rt (VObj query) docs
  = Ok (map VObj (filter (matches rt (VObj query)) docs)).
Proof.
  induction docs as [|doc docs IH]; simpl; auto.
  rewrite _matchQuery_total, IH. simpl.
  now destruct (matches rt (VObj query) doc).
Qed.





(* ----------------------------------------------------------------- *)
(** *** Inserting *)

Lemma In_set_add (x : string) (l : list string) : In x (set_add x l).
Proof.
  unfold set_add. destruct (existsb (String.eqb x) l) eqn:E.
  - apply existsb_exists in E. destruct E as (y & Hin & Heq).
    apply String.eqb_eq in Heq. now subst y.
  - apply in_or_app. right. now left.
Qed.

Lemma set_add_idempotent (x : string) (l : list string) :
  set_add x (set_add x l) = set_add x l.
Proof.
  unfold set_add at 1.
  assert (H : existsb (String.eqb x) (set_add x l) = true).
  { apply existsb_exists. exists x. split; [apply In_set_add|].
    apply String.eqb_refl. }
  now rewrite H.
Qed.

Lemma set_prop_twice {A : Type} (k : string) (v1 v2 : A) (o : list (string * A)) :
  set_prop k v2 (set_prop k v1 o) = set_prop k v2 o.
Proof.
  induction o as [|[k' v'] o IH]; simpl.
  - now rewrite String.eqb_refl.
  - destruct (k =? k')%string eqn:E; simpl.
    + now rewrite String.eqb_refl.
    + now rewrite E, IH.
Qed.

Lemma set_prop_same {A : Type} (k : string) (v : A) (o : list (string * A)) :
  lookup k o = Some v -> set_prop k v o = o.
Proof.
  induction o as [|[k' v'] o IH]; simpl; try discriminate.
  destruct (String.eqb_spec k k') as [-> | Hne].
  - intros H. now injection H as ->.
  - intros H. now rewrite IH.
Qed.

(** X12.  [insertOne] by a user who may write stores a copy of the
    document at the end of the collection and returns that copy.  The
    copy's [_id] is the identifier generated at the call, also when the
    document came with an [_id] of its own; every other field is the
    document's.  The collection is marked dirty and no other collection
    changes. *)
Theorem insertOne_assigns_the_id (rt : runtime) (dbName collectionName : string)
  (doc user : value) (w : world) (docs : list obj) :
  absent_or_permitted user (fullName dbName collectionName) "write" = Ok true ->
  lookup (fullName dbName collectionName) (_collections (jsm w)) = Some docs ->
  exists newDoc w',
    insertOne rt dbName collectionName doc user w = (Ok (VObj newDoc), w')
    /\ lookup (fullName dbName collectionName) (_collections (jsm w'))
       = Some (docs ++ [newDoc])
    /\ get newDoc "_id" = VStr (objectId rt (now w) (drawn w))
    /\ (forall k, k <> "_id" -> lookup k newDoc = lookup k (own_props doc))
    /\ In (fullName dbName collectionName) (_changedCollections (jsm w'))
    /\ forall other, other <> fullName dbName collectionName ->
         lookup other (_collections (jsm w')) = lookup other (_collections (jsm w)).
Proof.
  intros Hguard Hdocs.
  exists (set_prop "_id" (VStr (objectId rt (now w) (drawn w))) (own_props doc)).
  unfold insertOne, bind, lift. rewrite Hguard.
  unfold gets at 1. cbv beta iota. rewrite Hdocs.
  unfold _generateUniqueId, the_array, store_collection, mark_changed,
    updateActivity_on_disk, updateActivity, modify, gets, bind, ret.
  cbn [jsm disk now drawn storageMode _collections _indexes set_collections
       set_changedCollections set_lastActivity].
  destruct (storageMode (jsm w) =? "disk")%string;
    (eexists; split; [reflexivity|]);
    cbn [jsm _collections _changedCollections set_collections
         set_changedCollections set_lastActivity];
    (split; [apply lookup_set_prop_same|]);
    (split; [unfold get; now rewrite lookup_set_prop_same|]);
    (split; [intros k Hk; now apply lookup_set_prop_other|]);
    (split; [apply In_set_add|]);
    intros other Hother; now apply lookup_set_prop_other.
Qed.

Lemma insertOne_assigns_the_id_witness :
  exists newDoc w',
    insertOne sample_rt "test" "one"
      (VObj [("_id", VStr "mine"); ("name", VStr "Gamma")]) VUndef
      (sample_world "memory" three_docs) = (Ok (VObj newDoc), w')
    /\ lookup "test.one" (_collections (jsm w')) = Some (three_docs ++ [newDoc])
    /\ get newDoc "_id" = VStr "00000005000000000000000000000000"
    /\ lookup "name" newDoc = Some (VStr "Gamma").
Proof.
  destruct (insertOne_assigns_the_id sample_rt "test" "one"
              (VObj [("_id", VStr "mine"); ("name", VStr "Gamma")]) VUndef
              (sample_world "memory" three_docs) three_docs eq_refl eq_refl)
    as (newDoc & w' & H1 & H2 & H3 & H4 & _).
  exists newDoc, w'. split; [exact H1|]. split; [exact H2|].
  split; [exact H3|]. rewrite H4 by discriminate. reflexivity.
Defined.

Lemma with_ids_spec (rt : runtime) (items : list value) (w : world) :
  with_ids rt items w
  = (Ok (stamped rt (now w) (drawn w) items),
     mkWorld (jsm w) (disk w) (now w) (length items + drawn w)).
Proof.
  revert w. induction items as [|item items IH]; intros w; simpl.
  - unfold ret. now destruct w.
  - unfold bind, _generateUniqueId. rewrite IH. simpl. unfold ret.
    now rewrite Nat.add_succ_r.
Qed.

(** [insertMany] run in full. *)
Lemma insertMany_run (rt : runtime) (dbName collectionName : string)
  (items : list value) (user : value) (w : world) (docs : list obj) :
  absent_or_permitted user (fullName dbName collectionName) "write" = Ok true ->
  lookup (fullName dbName collectionName) (_collections (jsm w)) = Some docs ->
  insertMany rt dbName collectionName (VArr items) user w
  = (Ok (VArr (map VObj (stamped rt (now w) (drawn w) items))),
     inserted (fullName dbName collectionName)
       (docs ++ stamped rt (now w) (drawn w) items) (length items) w).
Proof.
  intros Hguard Hdocs.
  unfold insertMany, bind, lift. rewrite Hguard.
  unfold gets at 1. cbv beta iota. rewrite Hdocs, with_ids_spec.
  unfold the_array, store_collection, mark_changed,
    updateActivity_on_disk, updateActivity, modify, gets, bind, ret, inserted.
  cbn [jsm disk now drawn storageMode _collections _indexes set_collections
       set_changedCollections set_lastActivity].
  now destruct (storageMode (jsm w) =? "disk")%string.
Qed.

(** X13.  [insertMany] by a user who may write appends copies of the
    items to the collection in the order given, each with an identifier of
    its own drawn in that order, returns the copies, and marks the
    collection dirty; an empty list of items, too, leaves the collection
    marked dirty. *)
Theorem insertMany_appends_in_order (rt : runtime)
  (dbName collectionName : string) (items : list value) (user : value)
  (w : world) (docs : list obj) :
  absent_or_permitted user (fullName dbName collectionName) "write" = Ok true ->
  lookup (fullName dbName collectionName) (_collections (jsm w)) = Some docs ->
  exists w',
    insertMany rt dbName collectionName (VArr items) user w
      = (Ok (VArr (map VObj (stamped rt (now w) (drawn w) items))), w')
    /\ lookup (fullName dbName collectionName) (_collections (jsm w'))
       = Some (docs ++ stamped rt (now w) (drawn w) items)
    /\ length (stamped rt (now w) (drawn w) items) = length items
    /\ In (fullName dbName collectionName) (_changedCollections (jsm w'))
    /\ drawn w' = length items + drawn w.
Proof.
  intros Hguard Hdocs.
  rewrite (insertMany_run rt dbName collectionName items user w docs Hguard Hdocs).
  eexists. split; [reflexivity|].
  unfold inserted. cbn [jsm drawn].
  assert (Hlen : forall t k, length (stamped rt t k items) = length items).
  { induction items as [|item items' IH]; intros t k; simpl; auto. }
  destruct (storageMode (jsm w) =? "disk")%string;
    cbn [_collections _changedCollections set_collections
         set_changedCollections set_lastActivity];
    (split; [apply lookup_set_prop_same|]);
    (split; [apply Hlen|]); (split; [apply In_set_add | reflexivity]).
Qed.

Lemma insertMany_appends_in_order_witness :
  exists w',
    insertMany sample_rt "test" "one"
      (VArr [VObj [("name", VStr "Gamma")]; VObj [("name", VStr "Delta")]])
      VUndef (sample_world "memory" three_docs)
    = (Ok (VArr [VObj [("name", VStr "Gamma");
                       ("_id", VStr "00000005000000000000000000000000")];
                 VObj [("name", VStr "Delta");
                       ("_id", VStr "00000005000000000000000000000001")]]), w')
    /\ lookup "test.one" (_collections (jsm w'))
       = Some (three_docs
               ++ [[("name", VStr "Gamma");
                    ("_id", VStr "00000005000000000000000000000000")];
                   [("name", VStr "Delta");
                    ("_id", VStr "00000005000000000000000000000001")]]).
Proof.
  destruct (insertMany_appends_in_order sample_rt "test" "one"
              [VObj [("name", VStr "Gamma")]; VObj [("name", VStr "Delta")]]
              VUndef (sample_world "memory" three_docs) three_docs
              eq_refl eq_refl) as (w' & H1 & H2 & _).
  exists w'. split; [exact H1 | exact H2].
Defined.

(** [insertOne] run in full. *)
Lemma insertOne_run (rt : runtime) (dbName collectionName : string)
  (doc user : value) (w : world) (docs : list obj) :
  absent_or_permitted user (fullName dbName collectionName) "write" = Ok true ->
  lookup (fullName dbName collectionName) (_collections (jsm w)) = Some docs ->
  insertOne rt dbName collectionName doc user w
  = (Ok (VObj (set_prop "_id" (VStr (objectId rt (now w) (drawn w)))
                 (own_props doc))),
     inserted (fullName dbName collectionName)
       (docs ++ [set_prop "_id" (VStr (objectId rt (now w) (drawn w)))
                   (own_props doc)]) 1 w).
Proof.
  intros Hguard Hdocs.
  unfold insertOne, bind, lift. rewrite Hguard.
  unfold gets at 1. cbv beta iota. rewrite Hdocs.
  unfold _generateUniqueId, the_array, store_collection, mark_changed,
    updateActivity_on_disk, updateActivity, modify, gets, bind, ret, inserted.
  cbn [jsm disk now drawn storageMode _collections _indexes set_collections
       set_changedCollections set_lastActivity].
  now destruct (storageMode (jsm w) =? "disk")%string.
Qed.

(** Two rounds of inserts into one collection leave what one round with
    the final contents leaves. *)
Lemma inserted_twice (fullCollectionName : string) (docs1 docs2 : list obj)
  (n1 n2 : nat) (w : world) :
  inserted fullCollectionName docs2 n2 (inserted fullCollectionName docs1 n1 w)
  = inserted fullCollectionName docs2 (n2 + n1) w.
Proof.
  destruct w as [s d t k]. destruct s as [sm dbs cs ixs ch la it tm sd du ini].
  unfold inserted. cbn [jsm disk now drawn storageMode].
  destruct (sm =? "disk")%string eqn:E;
    cbn [storageMode _collections _changedCollections set_collections
         set_changedCollections set_lastActivity _databases _indexes
         _lastActivity idleTimeout _idleTimer _isShuttingDown _isDumping
         _isInitialized];
    rewrite ?E;
    cbn [storageMode _collections _changedCollections set_collections
         set_changedCollections set_lastActivity _databases _indexes
         _lastActivity idleTimeout _idleTimer _isShuttingDown _isDumping
         _isInitialized];
    rewrite set_prop_twice, set_add_idempotent, Nat.add_assoc; reflexivity.
Qed.

Lemma insert_each_run (rt : runtime) (dbName collectionName : string)
  (items : list value) (user : value) (w : world) (docs : list obj) :
  items <> [] ->
  absent_or_permitted user (fullName dbName collectionName) "write" = Ok true ->
  lookup (fullName dbName collectionName) (_collections (jsm w)) = Some docs ->
  insert_each rt dbName collectionName items user w
  = (Ok (map VObj (stamped rt (now w) (drawn w) items)),
     inserted (fullName dbName collectionName)
       (docs ++ stamped rt (now w) (drawn w) items) (length items) w).
Proof.
  intros Hne Hguard. revert w docs.
  induction items as [|item items IH]; intros w docs Hdocs; [contradiction|].
  simpl. unfold bind.
  rewrite (insertOne_run rt dbName collectionName item user w docs Hguard Hdocs).
  destruct items as [|item2 items].
  - reflexivity.
  - assert (Hdocs1 :
      lookup (fullName dbName collectionName)
        (_collections
           (jsm (inserted (fullName dbName collectionName)
                   (docs ++ [set_prop "_id" (VStr (objectId rt (now w) (drawn w)))
                               (own_props item)]) 1 w)))
      = Some (docs ++ [set_prop "_id" (VStr (objectId rt (now w) (drawn w)))
                         (own_props item)])).
    { unfold inserted. cbn [jsm].
      destruct (storageMode (jsm w) =? "disk")%string;
        cbn [_collections set_collections set_changedCollections
             set_lastActivity]; apply lookup_set_prop_same. }
    rewrite (IH ltac:(discriminate) _ _ Hdocs1).
    unfold ret. rewrite inserted_twice.
    change (now (inserted (fullName dbName collectionName)
                   (docs ++ [set_prop "_id" (VStr (objectId rt (now w) (drawn w)))
                               (own_props item)]) 1 w)) with (now w).
    change (drawn (inserted (fullName dbName collectionName)
                     (docs ++ [set_prop "_id"
                                 (VStr (objectId rt (now w) (drawn w)))
                                 (own_props item)]) 1 w)) with (S (drawn w)).
    rewrite <- app_assoc. cbn [app length stamped map].
    now rewrite Nat.add_1_r.
Qed.

(** X14.  [insertMany] of a non-empty list does what [insertOne] called
    once per item, in order, does: the same documents come back, with the
    same identifiers, and the two leave the same world. *)
Theorem insertMany_is_repeated_insertOne (rt : runtime)
  (dbName collectionName : string) (items : list value) (user : value)
  (w : world) (docs : list obj) :
  items <> [] ->
  absent_or_permitted user (fullName dbName collectionName) "write" = Ok true ->
  lookup (fullName dbName collectionName) (_collections (jsm w)) = Some docs ->
  exists stored w',
    insert_each rt dbName collectionName items user w = (Ok stored, w')
    /\ insertMany rt dbName collectionName (VArr items) user w
       = (Ok (VArr stored), w').
Proof.
  intros Hne Hguard Hdocs.
  do 2 eexists. split.
  - apply (insert_each_run rt dbName collectionName items user w docs);
      assumption.
  - apply (insertMany_run rt dbName collectionName items user w docs);
      assumption.
Qed.

Lemma insertMany_is_repeated_insertOne_witness :
  exists stored w',
    insert_each sample_rt "test" "one"
      [VObj [("name", VStr "Gamma")]; VObj [("name", VStr "Delta")]] VUndef
      (sample_world "disk" three_docs) = (Ok stored, w')
    /\ insertMany sample_rt "test" "one"
         (VArr [VObj [("name", VStr "Gamma")]; VObj [("name", VStr "Delta")]])
         VUndef (sample_world "disk" three_docs) = (Ok (VArr stored), w').
Proof.
  apply (insertMany_is_repeated_insertOne sample_rt "test" "one"
           [VObj [("name", VStr "Gamma")]; VObj [("name", VStr "Delta")]]
           VUndef (sample_world "disk" three_docs) three_docs);
    [discriminate | reflexivity | reflexivity].
Defined.

(* ----------------------------------------------------------------- *)
(** *** Refusals and calls that find nothing to do *)

(** X15.  A user whom [hasPermission] refuses [write] changes nothing
    through the collection methods: [insertOne] and [insertMany] return
    [null], [deleteOne] returns [0], [createIndex] returns [false],
    [updateOne] returns the permission-denied report, none of them throws,
    and each leaves the world as it was. *)
Theorem refused_writes_change_nothing (rt : runtime)
  (dbName collectionName field : string)
  (doc docs filter update options user : value) (w : world) :
  truthy user = true ->
  hasPermission user (fullName dbName collectionName) "write" = Ok false ->
  insertOne rt dbName collectionName doc user w = (Ok VNull, w)
  /\ insertMany rt dbName collectionName docs user w = (Ok VNull, w)
  /\ deleteOne rt dbName collectionName filter user w = (Ok (VNum 0), w)
  /\ collection_createIndex dbName collectionName field user w
     = (Ok (VBool false), w)
  /\ updateOne rt dbName collectionName filter update options user w
     = (Ok (VObj [("matchedCount", VNum 0); ("modifiedCount", VNum 0);
                  ("acknowledged", VBool false);
                  ("error", VStr "Permission denied")]), w).
Proof.
  intros Huser Hdenied.
  unfold insertOne, insertMany, deleteOne, collection_createIndex, updateOne,
    absent_or_permitted, checkPermission, bind, lift, ret.
  rewrite Huser, Hdenied. simpl. auto.
Qed.

Lemma refused_writes_change_nothing_witness :
  insertOne sample_rt "test" "one" (VObj [("name", VStr "Hacker")])
    (VObj (user_with [grant "test.one" ["read"]]))
    (sample_world "memory" three_docs)
  = (Ok VNull, sample_world "memory" three_docs)
  /\ deleteOne sample_rt "test" "one" (VObj [])
       (VObj (user_with [grant "test.one" ["read"]]))
       (sample_world "memory" three_docs)
     = (Ok (VNum 0), sample_world "memory" three_docs).
Proof.
  destruct (refused_writes_change_nothing sample_rt "test" "one" "name"
              (VObj [("name", VStr "Hacker")]) VNull (VObj []) VNull VNull
              (VObj (user_with [grant "test.one" ["read"]]))
              (sample_world "memory" three_docs) eq_refl eq_refl)
    as (H1 & _ & H3 & _).
  split; [exact H1 | exact H3].
Defined.

(** X16.  A user whom [hasPermission] refuses [read] gets the empty list
    from [find], whatever the query and whatever the collection holds;
    the query is not even looked at, so a query that would make the scan
    throw does not. *)
Theorem refused_find_returns_nothing (rt : runtime)
  (dbName collectionName : string) (query user : value) (s : JSM) :
  truthy user = true ->
  hasPermission user (fullName dbName collectionName) "read" = Ok false ->
  find rt dbName collectionName query user s = Ok [].
Proof.
  intros Huser Hdenied.
  unfold find, absent_or_permitted, checkPermission.
  rewrite Huser, Hdenied. reflexivity.
Qed.

Lemma refused_find_returns_nothing_witness :
  find sample_rt "test" "one" VNull (VObj (user_with [grant "test.two" ["read"]]))
    (sample_store "memory" three_docs) = Ok [].
Proof.
  exact (refused_find_returns_nothing sample_rt "test" "one" VNull
           (VObj (user_with [grant "test.two" ["read"]]))
           (sample_store "memory" three_docs) eq_refl eq_refl).
Defined.

(** X17.  [updateOne] that matches nothing and is not asked to upsert
    reports zero matched and zero modified and leaves the world as it
    was: the collection is not touched, not marked dirty, and no
    identifier is drawn. *)
Theorem updateOne_without_match_changes_nothing (rt : runtime)
  (dbName collectionName : string) (query : obj) (update options user : value)
  (w : world) (docs : list obj) :
  truthy user = true ->
  checkPermission user (fullName dbName collectionName) "write" = Ok true ->
  lookup (fullName dbName collectionName) (_collections (jsm w)) = Some docs ->
  Forall (fun x => matches rt (VObj query) x = false) docs ->
  strict_eq (get_prop_opt options "upsert") (VBool true) = false ->
  updateOne rt dbName collectionName (VObj query) update options user w
  = (Ok (VObj [("matchedCount", VNum 0); ("modifiedCount", VNum 0);
               ("acknowledged", VBool true)]), w).
Proof.
  intros Huser Hperm Hdocs Hnone Hupsert.
  unfold updateOne, bind, lift. rewrite Huser, Hperm. cbn [negb rbind].
  unfold gets at 1. cbv beta iota. rewrite Hdocs.
  rewrite (first_match_none rt query docs 0 Hnone), Hupsert. reflexivity.
Qed.

Lemma updateOne_without_match_changes_nothing_witness :
  updateOne sample_rt "test" "one" (VObj [("name", VStr "Nobody")])
    (VObj [("$set", VObj [("age", VNum 1)])]) (VObj [("upsert", VStr "true")])
    admin_user (sample_world "disk" three_docs)
  = (Ok (VObj [("matchedCount", VNum 0); ("modifiedCount", VNum 0);
               ("acknowledged", VBool true)]), sample_world "disk" three_docs).
Proof.
  apply (updateOne_without_match_changes_nothing sample_rt "test" "one"
           [("name", VStr "Nobody")] (VObj [("$set", VObj [("age", VNum 1)])])
           (VObj [("upsert", VStr "true")]) admin_user
           (sample_world "disk" three_docs) three_docs eq_refl eq_refl eq_refl).
  - repeat constructor.
  - reflexivity.
Defined.

Lemma filter_none {A : Type} (f : A -> bool) (l : list A) :
  Forall (fun x => f x = false) l -> filter f l = [].
Proof. induction 1 as [|x l Hx _ IH]; simpl; auto. now rewrite Hx. Qed.

Lemma filter_all {A : Type} (f : A -> bool) (l : list A) :
  Forall (fun x => f x = false) l -> filter (fun x => negb (f x)) l = l.
Proof. induction 1 as [|x l Hx _ IH]; simpl; auto. now rewrite Hx, IH. Qed.

(** What [deleteOne] leaves when nothing matched. *)
Lemma deleteOne_nothing (rt : runtime) (dbName collectionName : string)
  (query : obj) (user : value) (w : world) (docs : list obj) :
  absent_or_permitted user (fullName dbName collectionName) "write" = Ok true ->
  lookup (fullName dbName collectionName) (_collections (jsm w)) = Some docs ->
  Forall (fun x => matches rt (VObj query) x = false) docs ->
  deleteOne rt dbName collectionName (VObj query) user w
  = (Ok (VNum 0),
     if (storageMode (jsm w) =? "disk")%string
     then mkWorld (set_lastActivity (now w) (jsm w)) (disk w) (now w) (drawn w)
     else w).
Proof.
  intros Hguard Hdocs Hnone.
  unfold deleteOne, bind, lift. rewrite Hguard.
  unfold gets at 1. cbv beta iota. rewrite Hdocs. unfold the_array, ret at 1.
  cbv beta iota.
  rewrite delete_loop_spec by lia.
  cbn [firstn skipn app Nat.add].
  rewrite (filter_none _ docs Hnone), (filter_all _ docs Hnone).
  cbn [length Nat.ltb Nat.leb].
  unfold store_collection, updateActivity_on_disk, updateActivity,
    modify, gets, bind, ret.
  destruct w as [s d t k]. destruct s as [sm dbs cs ixs ch la it tm sd du ini].
  cbn [jsm disk now drawn storageMode _collections _indexes set_collections
       set_changedCollections set_lastActivity _databases _changedCollections
       _lastActivity idleTimeout _idleTimer _isShuttingDown _isDumping
       _isInitialized] in *.
  rewrite (set_prop_same _ docs cs Hdocs).
  now destruct (sm =? "disk")%string.
Qed.

(** X18.  [deleteOne] with a filter no document matches returns [0] and
    neither changes any collection nor marks anything dirty; in memory
    mode it leaves the world exactly as it was, in disk mode it only
    resets the activity clock. *)
Theorem deleteOne_without_match_changes_nothing (rt : runtime)
  (dbName collectionName : string) (query : obj) (user : value) (w : world)
  (docs : list obj) :
  absent_or_permitted user (fullName dbName collectionName) "write" = Ok true ->
  lookup (fullName dbName collectionName) (_collections (jsm w)) = Some docs ->
  Forall (fun x => matches rt (VObj query) x = false) docs ->
  exists w',
    deleteOne rt dbName collectionName (VObj query) user w = (Ok (VNum 0), w')
    /\ _collections (jsm w') = _collections (jsm w)
    /\ _changedCollections (jsm w') = _changedCollections (jsm w)
    /\ _indexes (jsm w') = _indexes (jsm w)
    /\ disk w' = disk w
    /\ (storageMode (jsm w) <> "disk" -> w' = w)
    /\ (storageMode (jsm w) = "disk" -> _lastActivity (jsm w') = now w).
Proof.
  intros Hguard Hdocs Hnone.
  rewrite (deleteOne_nothing rt dbName collectionName query user w docs
             Hguard Hdocs Hnone).
  eexists. split; [reflexivity|].
  destruct (String.eqb_spec (storageMode (jsm w)) "disk") as [Hd | Hm];
    repeat split; auto; try contradiction.
Qed.

Lemma deleteOne_without_match_changes_nothing_witness :
  deleteOne sample_rt "test" "one" (VObj [("name", VStr "Nobody")]) VUndef
    (sample_world "memory" three_docs)
  = (Ok (VNum 0), sample_world "memory" three_docs).
Proof.
  destruct (deleteOne_without_match_changes_nothing sample_rt "test" "one"
              [("name", VStr "Nobody")] VUndef
              (sample_world "memory" three_docs) three_docs eq_refl eq_refl)
    as (w' & Hrun & _ & _ & _ & _ & Hsame & _).
  - repeat constructor.
  - rewrite Hrun. f_equal. apply Hsame. discriminate.
Defined.

Lemma Forall_filter_negb {A : Type} (f : A -> bool) (l : list A) :
  Forall (fun x => f x = false) (filter (fun x => negb (f x)) l).
Proof.
  induction l as [|x l IH]; simpl; auto.
  destruct (f x) eqn:E; simpl; auto.
Qed.

(** X19.  After [deleteOne], nothing in the collection matches the
    filter any more: a [find] with the same filter that is answered by
    the scan returns the empty list, and a second [deleteOne] with the
    same filter deletes nothing. *)
Theorem deleteOne_leaves_no_match (rt : runtime)
  (dbName collectionName : string) (query : obj) (user reader : value)
  (w : world) (docs : list obj) :
  absent_or_permitted user (fullName dbName collectionName) "write" = Ok true ->
  absent_or_permitted reader (fullName dbName collectionName) "read" = Ok true ->
  lookup (fullName dbName collectionName) (_collections (jsm w)) = Some docs ->
  exists count w',
    deleteOne rt dbName collectionName (VObj query) user w = (Ok (VNum count), w')
    /\ ((forall docs',
           find_by_index (jsm w') (fullName dbName collectionName) docs'
             (VObj query) = Ok None) ->
        find rt dbName collectionName (VObj query) reader (jsm w') = Ok [])
    /\ fst (deleteOne rt dbName collectionName (VObj query) user w')
       = Ok (VNum 0).
Proof.
  intros Hwrite Hread Hdocs.
  destruct (deleteOne_effect rt dbName collectionName query user w docs
              Hwrite Hdocs) as (w' & Hrun & Hc & _).
  assert (Hdocs' : lookup (fullName dbName collectionName) (_collections (jsm w'))
                   = Some (filter (fun d => negb (matches rt (VObj query) d)) docs))
    by (rewrite Hc; apply lookup_set_prop_same).
  do 2 eexists. split; [exact Hrun|]. split.
  - intros Hscan. unfold find. rewrite Hread, Hdocs'. simpl.
    rewrite Hscan. simpl. rewrite scan_filter.
    now rewrite (filter_none _ _ (Forall_filter_negb _ docs)).
  - rewrite (deleteOne_nothing rt dbName collectionName query user w' _
               Hwrite Hdocs' (Forall_filter_negb _ docs)).
    reflexivity.
Qed.

Lemma deleteOne_leaves_no_match_witness :
  exists count w',
    deleteOne sample_rt "test" "one" (VObj [("name", VStr "Beta")]) VUndef
      (sample_world "memory" three_docs) = (Ok (VNum count), w')
    /\ find sample_rt "test" "one" (VObj [("name", VStr "Beta")]) VUndef (jsm w')
       = Ok [].
Proof.
  destruct (deleteOne_leaves_no_match sample_rt "test" "one"
              [("name", VStr "Beta")] VUndef VUndef
              (sample_world "memory" three_docs) three_docs
              eq_refl eq_refl eq_refl) as (count & w' & Hrun & Hfind & _).
  exists count, w'. split; [exact Hrun|].
  apply Hfind. intros docs'.
  assert (Hw : w' = snd (deleteOne sample_rt "test" "one"
                           (VObj [("name", VStr "Beta")]) VUndef
                           (sample_world "memory" three_docs)))
    by now rewrite Hrun.
  rewrite Hw. reflexivity.
Defined.

(* ----------------------------------------------------------------- *)
(** *** Dumping, closing and starting again *)





Lemma same_but_data_refl (w : world) : same_but_data w w.
Proof. repeat split. Qed.

Lemma same_but_data_trans (w1 w2 w3 : world) :
  same_but_data w1 w2 -> same_but_data w2 w3 -> same_but_data w1 w3.
Proof.
  unfold same_but_data. intros H1 H2.
  repeat match goal with H : _ /\ _ |- _ => destruct H end.
  repeat split; congruence.
Qed.

Lemma load_collections_frame (dbName : string) (files : dir) (w : world) :
  same_but_data w (snd (load_collections dbName files w)).
Proof.
  revert w. induction files as [|[f node] files IH]; intros w; cbn [load_collections].
  - apply same_but_data_refl.
  - destruct (endsWith f ".json"); [|apply IH].
    destruct node as [[docs|]|sub]; try apply same_but_data_refl.
    unfold bind, store_collection, modify. cbv beta iota.
    eapply same_but_data_trans; [|apply IH]. repeat split.
Qed.

Lemma load_databases_frame (d : dir) (w : world) :
  same_but_data w (snd (load_databases d w)).
Proof.
  revert w. induction d as [|[file [c|files]] d IH]; intros w; cbn [load_databases].
  - apply same_but_data_refl.
  - apply IH.
  - unfold bind at 1, modify at 1. cbv beta iota. unfold bind.
    pose proof (load_collections_frame file files
                  (mkWorld (set_databases (set_add file (_databases (jsm w))) (jsm w))
                     (disk w) (now w) (drawn w))) as Hc.
    destruct (load_collections file files _) as [[[]|e] w1]; cbn [snd] in *.
    + eapply same_but_data_trans; [|apply IH].
      eapply same_but_data_trans; [|exact Hc]. repeat split.
    + eapply same_but_data_trans; [|exact Hc]. repeat split.
Qed.

Lemma load_collections_succeeds (dbName : string) (files : dir) (w : world) :
  forallb (fun f => parseable (snd f)) files = true ->
  exists w', load_collections dbName files w = (Ok tt, w').
Proof.
  revert w. induction files as [|[f node] files IH]; intros w H;
    cbn [load_collections].
  - now exists w.
  - cbn [forallb snd] in H. apply andb_true_iff in H. destruct H as [Hn Hrest].
    destruct (endsWith f ".json"); [|now apply IH].
    destruct node as [[docs|]|sub]; try discriminate Hn.
    unfold bind, store_collection, modify. cbv beta iota. now apply IH.
Qed.

Lemma load_databases_succeeds (d : dir) (w : world) :
  tidy d = true -> exists w', load_databases d w = (Ok tt, w').
Proof.
  revert w. induction d as [|[file [c|files]] d IH]; intros w H;
    cbn [load_databases].
  - now exists w.
  - discriminate H.
  - unfold tidy in H. cbn [forallb snd] in H.
    apply andb_true_iff in H. destruct H as [Hfiles Hrest].
    unfold bind at 1, modify at 1. cbv beta iota. unfold bind.
    destruct (load_collections_succeeds file files
                (mkWorld (set_databases (set_add file (_databases (jsm w))) (jsm w))
                   (disk w) (now w) (drawn w)) Hfiles) as (w1 & ->).
    now apply IH.
Qed.



Lemma dump_named_memory_mode (rt : runtime) (dbName : string)
  (names : list string) (w : world) :
  storageMode (jsm w) <> "disk" ->
  dump_named rt dbName names w = (Ok tt, w).
Proof.
  intros Hmode. induction names as [|x names IH]; simpl; auto.
  unfold bind, gets. now rewrite _persistCollection_memory_mode.
Qed.

Lemma dump_databases_memory_mode (rt : runtime) (dbNames : list string)
  (w : world) :
  storageMode (jsm w) <> "disk" ->
  dump_databases rt dbNames w = (Ok tt, w).
Proof.
  intros Hmode. induction dbNames as [|x dbNames IH]; simpl; auto.
  unfold bind, gets. now rewrite dump_named_memory_mode.
Qed.

(** X21.  In memory mode nothing is ever written, whatever the runtime
    would do to a write: [_dumpChangedCollections], [_dumpAllData] and
    [close] return normally and leave the disk as it was.  The dump still
    empties the dirty set, and [close] still empties the store, so what
    was in memory is gone. *)
Theorem memory_mode_never_writes (rt : runtime) (w : world) :
  storageMode (jsm w) <> "disk" ->
  (exists w1,
     _dumpChangedCollections rt w = (Ok tt, w1)
     /\ disk w1 = disk w
     /\ _changedCollections (jsm w1) = []
     /\ _collections (jsm w1) = _collections (jsm w))
  /\ (exists w2,
        _dumpAllData rt w = (Ok tt, w2)
        /\ disk w2 = disk w
        /\ _collections (jsm w2) = _collections (jsm w))
  /\ (exists w3,
        close rt w = (Ok tt, w3)
        /\ disk w3 = disk w
        /\ _collections (jsm w3) = []
        /\ _databases (jsm w3) = []
        /\ _indexes (jsm w3) = []).
Proof.
  intros Hmode.
  assert (Hdump : forall v, storageMode (jsm v) <> "disk" ->
            _dumpChangedCollections rt v
            = (Ok tt, mkWorld (set_changedCollections [] (jsm v)) (disk v) (now v)
                        (drawn v))).
  { intros v Hv. unfold _dumpChangedCollections, bind, gets.
    now rewrite dump_each_memory_mode. }
  assert (Hall : forall v, storageMode (jsm v) <> "disk" ->
            exists v', _dumpAllData rt v = (Ok tt, v')
                       /\ disk v' = disk v
                       /\ _collections (jsm v') = _collections (jsm v)).
  { intros v Hv. unfold _dumpAllData, bind, gets. cbv beta iota.
    destruct (_isDumping (jsm v)).
    - exists v. now repeat split.
    - unfold modify at 1. cbv beta iota. unfold try_finally.
      rewrite Hdump by exact Hv. cbv beta iota.
      rewrite dump_databases_memory_mode by exact Hv.
      unfold modify. eexists. repeat split. }
  split; [|split].
  - rewrite (Hdump w Hmode). eexists. repeat split.
  - exact (Hall w Hmode).
  - unfold close, bind, modify at 1. cbv beta iota.
    destruct (Hall (mkWorld (set_idleTimer false (jsm w)) (disk w) (now w) (drawn w)))
      as (v' & -> & Hd & _).
    + destruct w as [[]]. exact Hmode.
    + unfold modify. eexists. split; [reflexivity|]. repeat split. exact Hd.
Qed.

Lemma memory_mode_never_writes_witness :
  exists w3,
    close failing_rt (sample_world "memory" three_docs) = (Ok tt, w3)
    /\ disk w3 = [] /\ _collections (jsm w3) = [].
Proof.
  destruct (memory_mode_never_writes failing_rt (sample_world "memory" three_docs))
    as (_ & _ & w3 & Hrun & Hdisk & Hc & _).
  - discriminate.
  - exists w3. repeat split; assumption.
Defined.






(* ----------------------------------------------------------------- *)
(** *** Start-up *)

(** The user [_ensureAdminUser] creates passes every permission check. *)
Lemma default_admin_passes (rt : runtime) (id resource permission : string) :
  hasPermission (VObj (default_admin rt id)) resource permission = Ok true.
Proof. reflexivity. Qed.

(** What [_ensureAdminUser] does: nothing when a user exists, otherwise
    it makes the default administrator the only user. *)
Lemma _ensureAdminUser_effect (rt : runtime) (w : world) :
  exists w1,
    _ensureAdminUser rt w = (Ok tt, w1)
    /\ disk w1 = disk w /\ now w1 = now w
    /\ storageMode (jsm w1) = storageMode (jsm w)
    /\ _idleTimer (jsm w1) = _idleTimer (jsm w)
    /\ _isInitialized (jsm w1) = _isInitialized (jsm w)
    /\ match lookup "auth.users" (_collections (jsm w)) with
       | Some (u :: us) => w1 = w
       | _ =>
           _collections (jsm w1)
           = set_prop "auth.users"
               [default_admin rt (objectId rt (now w) (drawn w))]
               (_collections (jsm w))
           /\ _changedCollections (jsm w1)
              = set_add "auth.users" (_changedCollections (jsm w))
           /\ drawn w1 = S (drawn w)
       end.
Proof.
  unfold _ensureAdminUser, bind at 1, modify at 1. cbv beta iota.
  destruct (lookup "auth.users" (_collections (jsm w))) as [[|u us]|] eqn:E.
  - unfold bind at 1, gets at 1. cbv beta iota. cbn [jsm]. rewrite E.
    unfold bind, _generateUniqueId, store_collection, mark_changed, modify.
    cbn [jsm disk now drawn]. eexists. split; [reflexivity|].
    destruct w as [[]]. cbn in *. repeat split.
  - unfold bind at 1, gets at 1. cbv beta iota. cbn [jsm]. rewrite E.
    unfold ret. exists w. destruct w as [[]]. cbn in *. repeat split.
  - unfold bind at 1, gets at 1. cbv beta iota. cbn [jsm _collections set_collections].
    rewrite lookup_set_prop_same.
    unfold bind, _generateUniqueId, store_collection, mark_changed, modify.
    cbn [jsm disk now drawn]. eexists. split; [reflexivity|].
    destruct w as [[]]. cbn in *. repeat split.
    apply set_prop_twice.
Qed.

(** X23.  [_ensureAdminUser] never throws and guarantees a user.  When
    [auth.users] already holds a user it changes nothing.  Otherwise it
    makes the default administrator the only user: username [admin], the
    hash of the password [admin], a freshly generated identifier, and a
    grant that passes every permission check on every resource; the
    collection is marked dirty.  Calling it a second time changes
    nothing. *)
Theorem ensureAdminUser_guarantees_a_user (rt : runtime) (w : world) :
  exists w1,
    _ensureAdminUser rt w = (Ok tt, w1)
    /\ (forall u us,
          lookup "auth.users" (_collections (jsm w)) = Some (u :: us) -> w1 = w)
    /\ (lookup "auth.users" (_collections (jsm w)) = None
        \/ lookup "auth.users" (_collections (jsm w)) = Some [] ->
        let admin := default_admin rt (objectId rt (now w) (drawn w)) in
        lookup "auth.users" (_collections (jsm w1)) = Some [admin]
        /\ In "auth.users" (_changedCollections (jsm w1))
        /\ forall resource permission,
             hasPermission (VObj admin) resource permission = Ok true)
    /\ _ensureAdminUser rt w1 = (Ok tt, w1).
Proof.
  destruct (_ensureAdminUser_effect rt w) as (w1 & Hrun & _ & _ & _ & _ & _ & Hcase).
  exists w1. split; [exact Hrun|]. split; [|split].
  - intros u us E. now rewrite E in Hcase.
  - intros Hnone admin.
    assert (Hnew : _collections (jsm w1)
                   = set_prop "auth.users" [admin] (_collections (jsm w))
                   /\ _changedCollections (jsm w1)
                      = set_add "auth.users" (_changedCollections (jsm w))
                   /\ drawn w1 = S (drawn w))
      by (destruct Hnone as [E | E]; now rewrite E in Hcase).
    destruct Hnew as (Hc & Hd & _). split; [|split].
    + rewrite Hc. apply lookup_set_prop_same.
    + rewrite Hd. apply In_set_add.
    + intros. apply default_admin_passes.
  - destruct (_ensureAdminUser_effect rt w1) as (w2 & Hrun2 & _ & _ & _ & _ & _ & Hcase2).
    assert (Hhas : exists u us,
              lookup "auth.users" (_collections (jsm w1)) = Some (u :: us)).
    { destruct (lookup "auth.users" (_collections (jsm w))) as [[|u us]|] eqn:E.
      - destruct Hcase as (Hc & _). rewrite Hc. do 2 eexists.
        apply lookup_set_prop_same.
      - subst w1. eauto.
      - destruct Hcase as (Hc & _). rewrite Hc. do 2 eexists.
        apply lookup_set_prop_same. }
    destruct Hhas as (u & us & E1). rewrite E1 in Hcase2. now subst w2.
Qed.

(** X24.  [initialize] on a tidy storage directory succeeds in either
    mode.  Afterwards the store is marked initialized, the idle timer
    has been started when the mode is [disk] and is left as it was
    otherwise, nothing has been written, and [auth.users] holds at least
    one user. *)
Theorem initialize_on_tidy_disk (rt : runtime) (w : world) :
  tidy (disk w) = true ->
  exists w',
    initialize rt w = (Ok tt, w')
    /\ _isInitialized (jsm w') = true
    /\ _idleTimer (jsm w')
       = (if (storageMode (jsm w) =? "disk")%string then true
          else _idleTimer (jsm w))
    /\ disk w' = disk w
    /\ exists u us,
         lookup "auth.users" (_collections (jsm w')) = Some (u :: us).
Proof.
  intros Htidy.
  destruct (load_databases_succeeds (disk w) w Htidy) as (w1 & Hload).
  pose proof (load_databases_frame (disk w) w) as Hframe.
  rewrite Hload in Hframe. cbn [snd] in Hframe.
  destruct Hframe as (Hd & _ & _ & Hm & _ & _ & Ht & _).
  set (w2 := (if (storageMode (jsm w) =? "disk")%string
              then mkWorld (set_idleTimer true (jsm w1)) (disk w1) (now w1) (drawn w1)
              else w1)).
  destruct (_ensureAdminUser_effect rt w2)
    as (w3 & Hrun3 & Hd3 & _ & _ & Ht3 & _ & Hcase).
  exists (mkWorld (set_isInitialized true (jsm w3)) (disk w3) (now w3) (drawn w3)).
  assert (Hw2 : disk w2 = disk w
                /\ _idleTimer (jsm w2)
                   = (if (storageMode (jsm w) =? "disk")%string then true
                      else _idleTimer (jsm w))).
  { subst w2. destruct (storageMode (jsm w) =? "disk")%string; cbn.
    - destruct w1 as [[]]. cbn in *. now split.
    - now split. }
  destruct Hw2 as [Hd2 Ht2].
  split; [|split; [|split; [|split]]].
  - unfold initialize, try_catch, bind at 1, _ensureStorageDirectory, ret at 1.
    cbv beta iota. unfold bind at 1, _loadPersistedData, try_catch.
    rewrite Hload. unfold bind at 1, gets at 1. cbv beta iota. rewrite Hm.
    unfold bind at 1.
    assert (Hstart : (if (storageMode (jsm w) =? "disk")%string
                      then _startIdleDump else ret tt) w1 = (Ok tt, w2)).
    { subst w2. now destruct (storageMode (jsm w) =? "disk")%string. }
    rewrite Hstart. unfold bind at 1, _setupSignalHandlers, ret at 1.
    cbv beta iota. unfold bind. rewrite Hrun3. reflexivity.
  - destruct w3 as [[]]. reflexivity.
  - destruct w3 as [[]]. cbn in *. congruence.
  - cbn [disk]. congruence.
  - assert (Hhas : exists u us,
              lookup "auth.users" (_collections (jsm w3)) = Some (u :: us)).
    { destruct (lookup "auth.users" (_collections (jsm w2))) as [[|u us]|] eqn:E.
      - destruct Hcase as (Hc & _). rewrite Hc. do 2 eexists.
        apply lookup_set_prop_same.
      - subst w3. eauto.
      - destruct Hcase as (Hc & _). rewrite Hc. do 2 eexists.
        apply lookup_set_prop_same. }
    destruct Hhas as (u & us & E). exists u, us.
    destruct w3 as [[]]. exact E.
Qed.

Lemma initialize_on_tidy_disk_witness :
  exists w',
    initialize sample_rt (fresh_world (Some "disk") None persisted_disk 0 0)
    = (Ok tt, w')
    /\ _isInitialized (jsm w') = true /\ _idleTimer (jsm w') = true.
Proof.
  destruct (initialize_on_tidy_disk sample_rt
              (fresh_world (Some "disk") None persisted_disk 0 0) eq_refl)
    as (w' & Hrun & Hinit & Htimer & _).
  exists w'. split; [exact Hrun|]. split; [exact Hinit | exact Htimer].
Defined.

Lemma load_collections_corrupt (dbName f : string) (node : fnode)
  (files : dir) (w : world) :
  In (f, node) files -> endsWith f ".json" = true -> parseable node = false ->
  exists msg w', load_collections dbName files w = (Throw (Failure msg), w').
Proof.
  intros Hin Hjson Hbad. revert w.
  induction files as [|[f' node'] files IH]; intros w; [destruct Hin|].
  cbn [load_collections].
  destruct (endsWith f' ".json") eqn:E.
  - destruct node' as [[docs|]|sub].
    + unfold bind, store_collection, modify. cbv beta iota.
      destruct Hin as [Heq | Hin]; [|now apply IH].
      injection Heq as <- <-. discriminate Hbad.
    + unfold throw. eauto.
    + unfold throw. eauto.
  - destruct Hin as [Heq | Hin]; [|now apply IH].
    injection Heq as <- <-. congruence.
Qed.

Lemma load_databases_corrupt (dbName f : string) (node : fnode)
  (files d : dir) (w : world) :
  In (dbName, FDir files) d -> In (f, node) files ->
  endsWith f ".json" = true -> parseable node = false ->
  exists msg w', load_databases d w = (Throw (Failure msg), w').
Proof.
  intros Hdb Hin Hjson Hbad. revert w.
  induction d as [|[file [c|cf]] d IH]; intros w; [destruct Hdb| |];
    cbn [load_databases].
  - destruct Hdb as [Heq | Hdb]; [discriminate Heq | now apply IH].
  - unfold bind at 1, modify at 1. cbv beta iota. unfold bind.
    destruct Hdb as [Heq | Hdb].
    + injection Heq as <- <-.
      destruct (load_collections_corrupt file f node cf
                  (mkWorld (set_databases (set_add file (_databases (jsm w))) (jsm w))
                     (disk w) (now w) (drawn w)) Hin Hjson Hbad)
        as (msg & w' & ->). eauto.
    + destruct (load_collections file cf _) as [[[]|[what|msg]] w1] eqn:E.
      * now apply IH.
      * exfalso. clear - E. revert E.
        generalize (mkWorld (set_databases (set_add file (_databases (jsm w))) (jsm w))
                     (disk w) (now w) (drawn w)).
        induction cf as [|[f' [[docs|]|sub]] cf IHc]; intros v; cbn [load_collections];
          try discriminate;
          destruct (endsWith f' ".json"); try discriminate; try apply IHc.
      * eauto.
Qed.

(** X25.  [initialize] stops at a file it cannot parse.  When some
    database directory holds an entry named [*.json] that is not a
    parseable file, [initialize] throws an error whose message starts
    with [Error loading persisted data: ]; the store is not marked
    initialized, the idle timer is not started, no administrator is
    created and nothing is written. *)
Theorem initialize_stops_at_corrupt_file (rt : runtime) (w : world)
  (dbName f : string) (node : fnode) (files : dir) :
  In (dbName, FDir files) (disk w) -> In (f, node) files ->
  endsWith f ".json" = true -> parseable node = false ->
  exists msg w',
    initialize rt w
    = (Throw (Failure ("Error loading persisted data: " ++ msg)), w')
    /\ _isInitialized (jsm w') = _isInitialized (jsm w)
    /\ _idleTimer (jsm w') = _idleTimer (jsm w)
    /\ _changedCollections (jsm w') = _changedCollections (jsm w)
    /\ drawn w' = drawn w
    /\ disk w' = disk w.
Proof.
  intros Hdb Hin Hjson Hbad.
  destruct (load_databases_corrupt dbName f node files (disk w) w Hdb Hin Hjson Hbad)
    as (msg & w' & Hload).
  pose proof (load_databases_frame (disk w) w) as Hframe.
  rewrite Hload in Hframe. cbn [snd] in Hframe.
  destruct Hframe as (Hd & _ & Hn & _ & _ & Hc & Ht & Hi).
  exists msg, w'. split.
  - unfold initialize, try_catch, bind at 1, _ensureStorageDirectory, ret at 1.
    cbv beta iota. unfold bind at 1, _loadPersistedData, try_catch.
    rewrite Hload. reflexivity.
  - now repeat split.
Qed.

Lemma initialize_stops_at_corrupt_file_witness :
  exists msg w',
    initialize sample_rt (fresh_world (Some "disk") None corrupt_disk 0 0)
    = (Throw (Failure ("Error loading persisted data: " ++ msg)), w')
    /\ _isInitialized (jsm w') = false.
Proof.
  destruct (initialize_stops_at_corrupt_file sample_rt
              (fresh_world (Some "disk") None corrupt_disk 0 0) "test" "one.json"
              (FFile None) [("notes.txt", FFile None); ("one.json", FFile None)])
    as (msg & w' & Hrun & Hinit & _).
  - now left.
  - right. now left.
  - reflexivity.
  - reflexivity.
  - exists msg, w'. split; [exact Hrun | exact Hinit].
Defined.

(* ----------------------------------------------------------------- *)
(** *** Registration and login *)

(** What [db(dbName).collection(collectionName)] does. *)
Lemma collection_run (dbName collectionName : string) (w : world) :
  exists w',
    collection dbName collectionName w = (Ok tt, w')
    /\ _indexes (jsm w') = _indexes (jsm w)
    /\ _collections (jsm w')
       = match lookup (fullName dbName collectionName) (_collections (jsm w)) with
         | Some _ => _collections (jsm w)
         | None => set_prop (fullName dbName collectionName) [] (_collections (jsm w))
         end.
Proof.
  unfold collection, modify. cbn [_collections set_databases].
  destruct (lookup (fullName dbName collectionName) (_collections (jsm w)));
    eexists; repeat split.
Qed.

Lemma collection_keeps_dirty (dbName collectionName : string) (w : world) :
  let w' := snd (collection dbName collectionName w) in
  _changedCollections (jsm w') = _changedCollections (jsm w)
  /\ drawn w' = drawn w.
Proof.
  unfold collection, modify. cbn [_collections set_databases snd].
  destruct (lookup (fullName dbName collectionName) (_collections (jsm w)));
    now split.
Qed.

Lemma collection_run_present (dbName collectionName : string) (w : world)
  (docs : list obj) :
  lookup (fullName dbName collectionName) (_collections (jsm w)) = Some docs ->
  exists w',
    collection dbName collectionName w = (Ok tt, w')
    /\ _indexes (jsm w') = _indexes (jsm w)
    /\ _collections (jsm w') = _collections (jsm w).
Proof.
  intros E. destruct (collection_run dbName collectionName w) as (w' & H1 & H2 & H3).
  rewrite E in H3. eauto.
Qed.

(** An unindexed [find] by username is a filter on the stored users. *)
Lemma find_username (rt : runtime) (username : string) (s : JSM)
  (users : list obj) :
  lookup "auth.users" (_indexes s) = None ->
  lookup "auth.users" (_collections s) = Some users ->
  find rt "auth" "users" (VObj [("username", VStr username)]) VUndef s
  = Ok (map VObj
          (filter (matches rt (VObj [("username", VStr username)])) users)).
Proof.
  intros Hix Hc.
  rewrite (find_absent_user rt "auth" "users" _ s users Hc).
  unfold find_by_index. cbn [object_entries own_props rbind fullName].
  change (fullName "auth" "users") with "auth.users". rewrite Hix.
  cbn [rbind]. apply scan_filter.
Qed.

Lemma map_VObj_nil (l : list obj) : map VObj l = [] -> l = [].
Proof. now destruct l. Qed.

(** [registerUser] run in full for a username not yet taken. *)
Lemma registerUser_run (rt : runtime) (username password : string)
  (roles : value) (w : world) :
  lookup "auth.users" (_indexes (jsm w)) = None ->
  find rt "auth" "users" (VObj [("username", VStr username)]) VUndef
    (jsm (snd (collection "auth" "users" w))) = Ok [] ->
  exists id users w1,
    registerUser rt username password roles w
    = (Ok (VObj (registered_user rt username password roles id)), w1)
    /\ lookup "auth.users" (_collections (jsm w1))
       = Some (users ++ [registered_user rt username password roles id])
    /\ filter (matches rt (VObj [("username", VStr username)])) users = []
    /\ _indexes (jsm w1) = _indexes (jsm w).
Proof.
  intros Hix Hfind.
  destruct (collection_run "auth" "users" w) as (w1 & Hrun1 & Hi1 & Hc1).
  rewrite Hrun1 in Hfind. cbn [snd] in Hfind.
  assert (Hhas : exists users,
            lookup "auth.users" (_collections (jsm w1)) = Some users).
  { rewrite Hc1. change (fullName "auth" "users") with "auth.users".
    destruct (lookup "auth.users" (_collections (jsm w))) eqn:E; eauto.
    rewrite lookup_set_prop_same. eauto. }
  destruct Hhas as (users & Hu).
  destruct (collection_run_present "auth" "users" w1 users Hu)
    as (w2 & Hrun2 & Hi2 & Hc2).
  assert (Hu2 : lookup (fullName "auth" "users") (_collections (jsm w2))
                = Some users) by (rewrite Hc2; exact Hu).
  destruct (insertOne_effect rt "auth" "users"
              (VObj [("username", VStr username);
                     ("password", VStr (bcrypt_hash rt password));
                     ("roles", stored_roles roles)]) VUndef w2 users eq_refl Hu2)
    as (w3 & Hrun3 & Hc3 & Hi3 & _).
  exists (objectId rt (now w2) (drawn w2)), users, w3.
  split; [|split; [|split]].
  - unfold registerUser, bind. rewrite Hrun1, Hfind.
    cbn [length Nat.ltb Nat.leb]. rewrite Hrun2. exact Hrun3.
  - rewrite Hc3. apply lookup_set_prop_same.
  - rewrite (find_username rt username (jsm w1) users) in Hfind
      by (try rewrite Hi1; assumption).
    injection Hfind as Hfind. now apply map_VObj_nil.
  - congruence.
Qed.

Lemma matches_own_username (rt : runtime) (username password : string)
  (roles : value) (id : string) :
  matches rt (VObj [("username", VStr username)])
    (registered_user rt username password roles id) = true.
Proof.
  unfold matches, _matchQuery, registered_user. cbn. now rewrite String.eqb_refl.
Qed.

(** X26.  Register, then log in.  For a username not yet taken, in a
    store with no index on [auth.users], and a [bcrypt.compare] that
    accepts the password against its own hash: before the registration
    [loginUser] returns [null]; [registerUser] succeeds; afterwards
    [loginUser] with the same password returns the very document that
    [registerUser] returned, and with any password that [bcrypt.compare]
    rejects it returns [null]. *)
Theorem registered_user_can_log_in (rt : runtime)
  (bcrypt_compare : string -> string -> bool) (username password : string)
  (roles : value) (w : world) :
  bcrypt_compare password (bcrypt_hash rt password) = true ->
  lookup "auth.users" (_indexes (jsm w)) = None ->
  find rt "auth" "users" (VObj [("username", VStr username)]) VUndef
    (jsm (snd (collection "auth" "users" w))) = Ok [] ->
  fst (loginUser rt bcrypt_compare username password w) = Ok VNull
  /\ exists id w1,
       let user := VObj (registered_user rt username password roles id) in
       registerUser rt username password roles w = (Ok user, w1)
       /\ fst (loginUser rt bcrypt_compare username password w1) = Ok user
       /\ forall other,
            bcrypt_compare other (bcrypt_hash rt password) = false ->
            fst (loginUser rt bcrypt_compare username other w1) = Ok VNull.
Proof.
  intros Hcompare Hix Hfind. split.
  - unfold loginUser, bind.
    destruct (collection "auth" "users" w) as [[[]|e] w0] eqn:E;
      cbn [snd] in Hfind.
    + now rewrite Hfind.
    + destruct (collection_run "auth" "users" w) as (w' & Hrun & _). congruence.
  - destruct (registerUser_run rt username password roles w Hix Hfind)
      as (id & users & w1 & Hrun & Hc & Hnone & Hi).
    exists id, w1. cbv zeta. split; [exact Hrun|].
    destruct (collection_run_present "auth" "users" w1 _ Hc)
      as (w2 & Hrun2 & Hi2 & Hc2).
    assert (Hlogin : find rt "auth" "users" (VObj [("username", VStr username)])
                       VUndef (jsm w2)
                     = Ok [VObj (registered_user rt username password roles id)]).
    { rewrite (find_username rt username (jsm w2)
                 (users ++ [registered_user rt username password roles id]))
        by congruence.
      rewrite filter_app, Hnone. cbn [filter app].
      now rewrite matches_own_username. }
    split.
    + unfold loginUser, bind. rewrite Hrun2, Hlogin. unfold lift.
      cbn [get_prop registered_user get lookup String.eqb Ascii.eqb Bool.eqb].
      cbn. now rewrite Hcompare.
    + intros other Hother.
      unfold loginUser, bind. rewrite Hrun2, Hlogin. unfold lift.
      cbn. now rewrite Hother.
Qed.

Lemma registered_user_can_log_in_witness :
  exists id w1,
    registerUser sample_rt "reader" "pass123" VUndef (sample_world "memory" [])
    = (Ok (VObj (registered_user sample_rt "reader" "pass123" VUndef id)), w1)
    /\ fst (loginUser sample_rt sample_compare "reader" "pass123" w1)
       = Ok (VObj (registered_user sample_rt "reader" "pass123" VUndef id)).
Proof.
  destruct (registered_user_can_log_in sample_rt sample_compare "reader" "pass123"
              VUndef (sample_world "memory" []) eq_refl eq_refl eq_refl)
    as (_ & id & w1 & Hrun & Hlogin & _).
  exists id, w1. split; [exact Hrun | exact Hlogin].
Defined.

(** X27.  A username can be registered once.  After a successful
    [registerUser], in a store with no index on [auth.users], a second
    [registerUser] for the same username throws [User ... already
    exists], whatever password and roles it is given, and stores
    nothing. *)
Theorem duplicate_registration_is_refused (rt : runtime)
  (username password password' : string) (roles roles' : value) (w : world) :
  lookup "auth.users" (_indexes (jsm w)) = None ->
  find rt "auth" "users" (VObj [("username", VStr username)]) VUndef
    (jsm (snd (collection "auth" "users" w))) = Ok [] ->
  exists user w1 w2,
    registerUser rt username password roles w = (Ok user, w1)
    /\ registerUser rt username password' roles' w1
       = (Throw (Failure ("User " ++ username ++ " already exists")), w2)
    /\ _collections (jsm w2) = _collections (jsm w1)
    /\ _changedCollections (jsm w2) = _changedCollections (jsm w1)
    /\ drawn w2 = drawn w1.
Proof.
  intros Hix Hfind.
  destruct (registerUser_run rt username password roles w Hix Hfind)
    as (id & users & w1 & Hrun & Hc & Hnone & Hi).
  destruct (collection_run_present "auth" "users" w1 _ Hc)
    as (w2 & Hrun2 & Hi2 & Hc2).
  assert (Hagain : find rt "auth" "users" (VObj [("username", VStr username)])
                     VUndef (jsm w2)
                   = Ok [VObj (registered_user rt username password roles id)]).
  { rewrite (find_username rt username (jsm w2)
               (users ++ [registered_user rt username password roles id]))
      by congruence.
    rewrite filter_app, Hnone. cbn [filter app].
    now rewrite matches_own_username. }
  do 3 eexists. split; [exact Hrun|]. split.
  - unfold registerUser, bind. rewrite Hrun2, Hagain.
    cbn [length Nat.ltb Nat.leb]. reflexivity.
  - split; [exact Hc2|].
    pose proof (collection_keeps_dirty "auth" "users" w1) as Hk.
    rewrite Hrun2 in Hk. exact Hk.
Qed.

Lemma duplicate_registration_is_refused_witness :
  exists user w1 w2,
    registerUser sample_rt "reader" "pass123" VUndef (sample_world "disk" [])
    = (Ok user, w1)
    /\ registerUser sample_rt "reader" "other" (VArr []) w1
       = (Throw (Failure "User reader already exists"), w2).
Proof.
  destruct (duplicate_registration_is_refused sample_rt "reader" "pass123" "other"
              VUndef (VArr []) (sample_world "disk" []) eq_refl eq_refl)
    as (user & w1 & w2 & H1 & H2 & _).
  exists user, w1, w2. split; [exact H1 | exact H2].
Defined.

(* ----------------------------------------------------------------- *)
(** *** Identifiers and the idle clock *)

Lemma get_stamped_id (k : string) (v : value) (o : obj) :
  get (set_prop k v o) k = v.
Proof. unfold get. now rewrite lookup_set_prop_same. Qed.

Lemma stamped_ids (rt : runtime) (t : Z) (k : nat) (items : list value) :
  map (fun d => get d "_id") (stamped rt t k items)
  = map (fun i => VStr (objectId rt t i)) (seq k (length items)).
Proof.
  revert k. induction items as [|item items IH]; intros k; cbn [stamped map length seq].
  - reflexivity.
  - now rewrite get_stamped_id, IH.
Qed.

Lemma objectId_inj (rt : runtime) (t : Z) (i j : nat) :
  VStr (objectId rt t i) = VStr (objectId rt t j) ->
  random_hex rt i = random_hex rt j.
Proof.
  intros H. injection H as H. unfold objectId in H.
  now apply append_inj_r in H.
Qed.

Lemma NoDup_map_through {A B C : Type} (f : A -> B) (g : A -> C) (l : list A) :
  (forall x y, g x = g y -> f x = f y) ->
  NoDup (map f l) -> NoDup (map g l).
Proof.
  intros Hfg. induction l as [|x l IH]; cbn [map]; intros H.
  - constructor.
  - inversion H as [|? ? Hnotin Hrest]; subst. constructor; auto.
    intros Hin. apply Hnotin. apply in_map_iff in Hin.
    destruct Hin as (y & Hy & Hin). apply in_map_iff. exists y.
    split; [apply Hfg; exact Hy | exact Hin].
Qed.

(** X28.  The identifiers of one [insertMany] call are pairwise distinct
    whenever the random source's draws for the call are: the call stamps
    every item with the same timestamp prefix, so the identifiers differ
    exactly where the draws do. *)
Theorem insertMany_ids_distinct (rt : runtime) (dbName collectionName : string)
  (items : list value) (user : value) (w : world) (docs : list obj) :
  absent_or_permitted user (fullName dbName collectionName) "write" = Ok true ->
  lookup (fullName dbName collectionName) (_collections (jsm w)) = Some docs ->
  NoDup (map (random_hex rt) (seq (drawn w) (length items))) ->
  exists newDocs w',
    insertMany rt dbName collectionName (VArr items) user w
    = (Ok (VArr (map VObj newDocs)), w')
    /\ length newDocs = length items
    /\ NoDup (map (fun d => get d "_id") newDocs).
Proof.
  intros Hguard Hdocs Hdraws.
  rewrite (insertMany_run rt dbName collectionName items user w docs Hguard Hdocs).
  do 2 eexists. split; [reflexivity|]. split.
  - rewrite <- (length_map (fun d => get d "_id")), stamped_ids.
    now rewrite length_map, length_seq.
  - rewrite stamped_ids.
    apply (NoDup_map_through (random_hex rt)); auto.
    intros i j. apply objectId_inj.
Qed.

Lemma insertMany_ids_distinct_witness :
  exists newDocs w',
    insertMany sample_rt "test" "one"
      (VArr [VObj [("name", VStr "Gamma")]; VObj [("name", VStr "Delta")]])
      VUndef (sample_world "memory" three_docs)
    = (Ok (VArr (map VObj newDocs)), w')
    /\ NoDup (map (fun d => get d "_id") newDocs).
Proof.
  destruct (insertMany_ids_distinct sample_rt "test" "one"
              [VObj [("name", VStr "Gamma")]; VObj [("name", VStr "Delta")]]
              VUndef (sample_world "memory" three_docs) three_docs
              eq_refl eq_refl)
    as (newDocs & w' & Hrun & _ & Hids).
  - repeat constructor; cbn; intuition discriminate.
  - exists newDocs, w'. split; [exact Hrun | exact Hids].
Defined.

(** X29.  Activity postpones the idle dump.  In disk mode an insert
    resets the activity clock, so however dirty the store is, the idle
    callback firing at any time up to [idleTimeout] milliseconds after the
    insert does nothing at all: no write, no change to the store, no
    error. *)
Theorem activity_postpones_the_dump (rt : runtime)
  (dbName collectionName : string) (doc user : value) (w : world)
  (docs : list obj) (later : Z) :
  storageMode (jsm w) = "disk" ->
  absent_or_permitted user (fullName dbName collectionName) "write" = Ok true ->
  lookup (fullName dbName collectionName) (_collections (jsm w)) = Some docs ->
  (later - now w <= idleTimeout (jsm w))%Z ->
  exists newDoc w1,
    insertOne rt dbName collectionName doc user w = (Ok newDoc, w1)
    /\ In (fullName dbName collectionName) (_changedCollections (jsm w1))
    /\ idle_tick rt (mkWorld (jsm w1) (disk w1) later (drawn w1))
       = (Ok tt, mkWorld (jsm w1) (disk w1) later (drawn w1)).
Proof.
  intros Hmode Hguard Hdocs Hsoon.
  rewrite (insertOne_run rt dbName collectionName doc user w docs Hguard Hdocs).
  do 2 eexists. split; [reflexivity|].
  unfold inserted. rewrite Hmode, String.eqb_refl. split.
  - cbn. apply In_set_add.
  - unfold idle_tick, idle_dump_due.
    cbn [jsm now idleTimeout _lastActivity set_lastActivity
         set_changedCollections set_collections].
    assert (Hnot : (idleTimeout (jsm w) <? later - now w)%Z = false)
      by (apply Z.ltb_ge; exact Hsoon).
    destruct w as [[]]. cbn in *. now rewrite Hnot.
Qed.

Lemma activity_postpones_the_dump_witness :
  exists newDoc w1,
    insertOne sample_rt "test" "one" (VObj [("name", VStr "Gamma")]) VUndef
      (sample_world "disk" three_docs) = (Ok newDoc, w1)
    /\ idle_tick sample_rt (mkWorld (jsm w1) (disk w1) 15000 (drawn w1))
       = (Ok tt, mkWorld (jsm w1) (disk w1) 15000 (drawn w1)).
Proof.
  destruct (activity_postpones_the_dump sample_rt "test" "one"
              (VObj [("name", VStr "Gamma")]) VUndef
              (sample_world "disk" three_docs) three_docs 15000
              eq_refl eq_refl eq_refl)
    as (newDoc & w1 & Hrun & _ & Htick).
  - cbn. lia.
  - exists newDoc, w1. split; [exact Hrun | exact Htick].
Defined.

(* ----------------------------------------------------------------- *)
(** *** The final dump *)












